(** * Raspberry Pi 4 BL31 platform setup (plat/rpi/rpi4/rpi4_bl31_setup.c)

    A shallow embedding of the EL3 platform layer: the next-image entry-point
    query, the early setup that fills the BL33 descriptor, the address-space
    setup, the device-tree patcher and the secure mailbox interrupt handler,
    followed by the properties proved about them. *)

From Stdlib Require Import ZArith List String Bool Lia.
Import ListNotations.
Open Scope Z_scope.

(** ** Machine integers

    C unsigned integers are [Z] values reduced modulo their width. *)

Definition u8 (v : Z) : Z := v mod 2 ^ 8.
Definition u32 (v : Z) : Z := v mod 2 ^ 32.
Definition u64 (v : Z) : Z := v mod 2 ^ 64.

(** A C scalar used as a condition is true when it is not zero. *)
Definition c_true (v : Z) : bool := negb (v =? 0).

(** ** Byte-addressed memory (AArch64, little endian) *)

Definition memory := Z -> Z.

Definition load8 (m : memory) (a : Z) : Z := m a.
Definition store8 (m : memory) (a v : Z) : memory :=
  fun x => if x =? a then u8 v else m x.

Definition load16 (m : memory) (a : Z) : Z :=
  Z.lor (load8 m a) (Z.shiftl (load8 m (a + 1)) 8).
Definition store16 (m : memory) (a v : Z) : memory :=
  store8 (store8 m a v) (a + 1) (Z.shiftr v 8).

Definition load32 (m : memory) (a : Z) : Z :=
  Z.lor (load16 m a) (Z.shiftl (load16 m (a + 2)) 16).
Definition store32 (m : memory) (a v : Z) : memory :=
  store16 (store16 m a v) (a + 2) (Z.shiftr v 16).

(** lib/libc/endian.h: [le32enc(p, u)] stores [u] byte by byte, lowest first. *)
Definition le32enc_bytes (u : Z) : list Z :=
  [Z.land u 0xff; Z.land (Z.shiftr u 8) 0xff;
   Z.land (Z.shiftr u 16) 0xff; Z.land (Z.shiftr u 24) 0xff].

Fixpoint store_bytes (m : memory) (a : Z) (bs : list Z) : memory :=
  match bs with
  | [] => m
  | b :: bs' => store_bytes (store8 m a b) (a + 1) bs'
  end.

Fixpoint load_bytes (m : memory) (a : Z) (n : nat) : list Z :=
  match n with
  | O => []
  | S n' => load8 m a :: load_bytes m (a + 1) n'
  end.

(** ** [struct pcc_region_t], packed: field addresses from the region base *)

Module pcc_region_t.
Definition Signature (base : Z) : Z := base.
Definition Command (base : Z) : Z := base + 4.
Definition Status (base : Z) : Z := base + 6.
Definition ComSpace (base i : Z) : Z := base + 8 + i.
End pcc_region_t.

Definition SECURE_TRIGGER : Z := 32.

(** ** What the firmware does to the outside world

    Calls into the collaborators (interrupt controller, translation-table
    library, libfdt, co-processor mailbox, console) and device-register
    accesses are recorded in order.  Log lines carry their format text
    (without the line end) and their arguments. *)

Inductive mmap_attr : Type :=
| MT_DEVICE | MT_NON_CACHEABLE | MT_MEMORY | MT_RO | MT_RW | MT_SECURE | MT_NS.

Inductive event : Type :=
| Ev_acknowledge_interrupt (irq : Z)
| Ev_end_of_interrupt (irq : Z)
| Ev_console_flush
| Ev_mmio_read_32 (addr v : Z)
| Ev_mmio_write_32 (addr v : Z)
| Ev_vc_get_clock
| Ev_vc_set_clock (clock : Z)
| Ev_vc_get_pwm
| Ev_vc_set_pwm (val : Z)
| Ev_vc_set_power (device state wait : Z)
| Ev_ERROR (fmt : string) (args : list Z)
| Ev_WARN (fmt : string) (args : list Z)
| Ev_INFO (fmt : string) (args : list Z)
| Ev_VERBOSE (fmt : string) (args : list Z)
| Ev_ldelay (delay : Z)
| Ev_rpi3_console_init
| Ev_mmap_add_region (base_pa base_va size : Z) (attr : list mmap_attr)
| Ev_rpi3_setup_page_tables (regions : list Z)
| Ev_enable_mmu_el3 (flags : Z)
| Ev_fdt_check_header (fdt ret : Z)
| Ev_fdt_open_into (fdt buf bufsize ret : Z)
| Ev_dt_add_psci_node (fdt ret : Z)
| Ev_dt_add_psci_cpu_enable_methods (fdt ret : Z)
| Ev_fdt_add_reserved_memory (fdt : Z) (name : string) (base size ret : Z)
| Ev_fdt_node_offset_by_compatible (fdt startoffset : Z) (compatible : string) (ret : Z)
| Ev_fdt_setprop (fdt nodeoffset : Z) (name : string) (val : list Z) (len ret : Z)
| Ev_fdt_path_offset (fdt : Z) (path : string) (ret : Z)
| Ev_fdt_setprop_string (fdt nodeoffset : Z) (name str : string) (ret : Z)
| Ev_fdt_pack (fdt ret : Z)
| Ev_clean_dcache_range (addr size : Z).

(** ** A state-and-trace monad *)

Definition run (S A : Type) : Type := S -> A * S * list event.

Definition ret {S A : Type} (a : A) : run S A := fun s => (a, s, []).

Definition bind {S A B : Type} (c : run S A) (k : A -> run S B) : run S B :=
  fun s =>
    let '(a, s1, t1) := c s in
    let '(b, s2, t2) := k a s1 in
    (b, s2, t1 ++ t2).

Declare Scope run_scope.
Delimit Scope run_scope with run.
Notation "x <- c ;; k" := (bind c (fun x => k))
  (at level 61, c at next level, right associativity) : run_scope.
Notation "c ;;; k" := (bind c (fun _ => k))
  (at level 61, right associativity) : run_scope.
Open Scope run_scope.

Definition emit {S : Type} (e : event) : run S unit := fun s => (tt, s, [e]).
Definition rd {S A : Type} (f : S -> A) : run S A := fun s => (f s, s, []).
Definition wr {S : Type} (f : S -> S) : run S unit := fun s => (tt, f s, []).

(** A call that only reads the state, and one that may change it; both are
    recorded together with what they returned. *)
Definition query {S R : Type} (f : S -> R) (ev : R -> event) : run S R :=
  fun s => let r := f s in (r, s, [ev r]).
Definition update {S : Type} (f : S -> Z * S) (ev : Z -> event) : run S Z :=
  fun s => let '(r, s') := f s in (r, s', [ev r]).

Definition result_of {S A : Type} (r : A * S * list event) : A := fst (fst r).
Definition state_of {S A : Type} (r : A * S * list event) : S := snd (fst r).
Definition trace_of {S A : Type} (r : A * S * list event) : list event := snd r.

Definition mmio_write_32 {S : Type} (addr v : Z) : run S unit :=
  emit (Ev_mmio_write_32 addr v).
Definition ERROR {S : Type} (fmt : string) (args : list Z) : run S unit :=
  emit (Ev_ERROR fmt args).
Definition WARN {S : Type} (fmt : string) (args : list Z) : run S unit :=
  emit (Ev_WARN fmt args).
Definition INFO {S : Type} (fmt : string) (args : list Z) : run S unit :=
  emit (Ev_INFO fmt args).
Definition VERBOSE {S : Type} (fmt : string) (args : list Z) : run S unit :=
  emit (Ev_VERBOSE fmt args).

(** ** Build configuration and boot handshake

    The preprocessor switches, the linker symbols and the constants of
    [platform_def.h] and [ep_info.h] the file refers to.  They are declared
    outside this file and are taken as they come. *)
Record build_config : Type := {
  PRELOADED_BL33_BASE : option Z;
  RPI3_PRELOADED_DTB_BASE : option Z;
  RPI3_DIRECT_LINUX_BOOT : bool;
  RPI3_BL33_IN_AARCH32 : bool;
  USE_COHERENT_MEM : bool;
  RPI4_LOCAL_CONTROL_BASE_ADDRESS : Z;
  RPI4_LOCAL_CONTROL_PRESCALER : Z;
  BL31_BASE : Z;
  BL31_END : Z;
  BL_CODE_BASE : Z;
  BL_CODE_END : Z;
  BL_RO_DATA_BASE : Z;
  BL_RO_DATA_END : Z;
  BL_COHERENT_RAM_BASE : Z;
  BL_COHERENT_RAM_END : Z;
  SECURE : Z;
  NON_SECURE : Z;
  SET_SECURITY_STATE : Z -> Z -> Z;
  rpi3_get_spsr_for_bl33_entry : Z
}.

(** The words at the beginning of armstub8.bin, as the GPU firmware left
    them; each is a [uint32_t]. *)
Record armstub8 : Type := {
  stub_magic_word : Z;
  dtb_ptr32_word : Z;
  kernel_entry32_word : Z
}.

Definition stub_magic (s : armstub8) : Z := u32 (stub_magic_word s).
Definition dtb_ptr32 (s : armstub8) : Z := u32 (dtb_ptr32_word s).
Definition kernel_entry32 (s : armstub8) : Z := u32 (kernel_entry32_word s).

(** ** Entry-point descriptors *)

(** The fields of [entry_point_info_t] this file touches. *)
Record entry_point_info_t : Type := {
  h_attr : Z;
  pc : Z;
  spsr : Z;
  args_arg0 : Z;
  args_arg1 : Z;
  args_arg2 : Z;
  args_arg3 : Z
}.

Record globals : Type := {
  bl32_image_ep_info : entry_point_info_t;
  bl33_image_ep_info : entry_point_info_t
}.

(** Objects of static storage duration start zeroed. *)
Definition zero_ep : entry_point_info_t :=
  {| h_attr := 0; pc := 0; spsr := 0;
     args_arg0 := 0; args_arg1 := 0; args_arg2 := 0; args_arg3 := 0 |}.
Definition static_init : globals :=
  {| bl32_image_ep_info := zero_ep; bl33_image_ep_info := zero_ep |}.

(** A pointer to one of the two static descriptors. *)
Inductive ep_ptr : Type := addr_bl32_image_ep_info | addr_bl33_image_ep_info.

Definition deref (g : globals) (q : ep_ptr) : entry_point_info_t :=
  match q with
  | addr_bl32_image_ep_info => bl32_image_ep_info g
  | addr_bl33_image_ep_info => bl33_image_ep_info g
  end.

(** Modelled from the spec: the macro [sec_state_is_valid] of [ep_info.h] is
    not in this file; there is one descriptor per privilege image, secure and
    non-secure, so a security state is valid when it is one of the two. *)
Definition sec_state_is_valid (cfg : build_config) (s : Z) : bool :=
  (s =? SECURE cfg) || (s =? NON_SECURE cfg).

Inductive outcome (A : Type) : Type :=
| Returned (a : A)
| AssertionFailed.
Arguments Returned {A} a.
Arguments AssertionFailed {A}.

Definition bl31_plat_get_next_image_ep_info
    (cfg : build_config) (g : globals) (type : Z) : outcome (option ep_ptr) :=
  if negb (sec_state_is_valid cfg type) then AssertionFailed
  else
    let next_image_info :=
      if type =? NON_SECURE cfg then addr_bl33_image_ep_info
      else addr_bl32_image_ep_info in
    if c_true (pc (deref g next_image_info)) then Returned (Some next_image_info)
    else Returned None.

Definition plat_get_ns_image_entrypoint {S : Type}
    (cfg : build_config) (stub : armstub8) : run S Z :=
  match PRELOADED_BL33_BASE cfg with
  | Some base => ret (u64 base)
  | None =>
      if stub_magic stub =? 0 then ret (kernel_entry32 stub)
      else
        WARN "Stub magic failure, using default kernel address 0x80000" [] ;;;
        ret 0x80000
  end.

Definition rpi4_get_dtb_address {S : Type}
    (cfg : build_config) (stub : armstub8) : run S Z :=
  match RPI3_PRELOADED_DTB_BASE cfg with
  | Some base => ret (u64 base)
  | None =>
      if stub_magic stub =? 0 then ret (dtb_ptr32 stub)
      else
        WARN "Stub magic failure, DTB address unknown" [] ;;;
        ret 0
  end.

(** The count-down loop of [ldelay] ends after [delay] rounds. *)
Definition ldelay {S : Type} (delay : Z) : run S unit := emit (Ev_ldelay delay).

Definition set_bl33 (f : entry_point_info_t -> entry_point_info_t) (g : globals) : globals :=
  {| bl32_image_ep_info := bl32_image_ep_info g;
     bl33_image_ep_info := f (bl33_image_ep_info g) |}.

Definition set_pc (v : Z) (e : entry_point_info_t) : entry_point_info_t :=
  {| h_attr := h_attr e; pc := v; spsr := spsr e;
     args_arg0 := args_arg0 e; args_arg1 := args_arg1 e;
     args_arg2 := args_arg2 e; args_arg3 := args_arg3 e |}.
Definition set_spsr (v : Z) (e : entry_point_info_t) : entry_point_info_t :=
  {| h_attr := h_attr e; pc := pc e; spsr := v;
     args_arg0 := args_arg0 e; args_arg1 := args_arg1 e;
     args_arg2 := args_arg2 e; args_arg3 := args_arg3 e |}.
Definition set_h_attr (f : Z -> Z) (e : entry_point_info_t) : entry_point_info_t :=
  {| h_attr := f (h_attr e); pc := pc e; spsr := spsr e;
     args_arg0 := args_arg0 e; args_arg1 := args_arg1 e;
     args_arg2 := args_arg2 e; args_arg3 := args_arg3 e |}.
Definition set_args (a0 a1 a2 a3 : Z -> Z) (e : entry_point_info_t) : entry_point_info_t :=
  {| h_attr := h_attr e; pc := pc e; spsr := spsr e;
     args_arg0 := a0 (args_arg0 e); args_arg1 := a1 (args_arg1 e);
     args_arg2 := a2 (args_arg2 e); args_arg3 := a3 (args_arg3 e) |}.

Definition bl31_early_platform_setup2
    (cfg : build_config) (stub : armstub8) (arg0 arg1 arg2 arg3 : Z) : run globals unit :=
  mmio_write_32 (RPI4_LOCAL_CONTROL_BASE_ADDRESS cfg) 0 ;;;
  mmio_write_32 (RPI4_LOCAL_CONTROL_PRESCALER cfg) 0x80000000 ;;;
  ldelay 100000 ;;;
  emit Ev_rpi3_console_init ;;;
  entry <- plat_get_ns_image_entrypoint cfg stub ;;
  wr (set_bl33 (set_pc entry)) ;;;
  wr (set_bl33 (set_spsr (u32 (rpi3_get_spsr_for_bl33_entry cfg)))) ;;;
  wr (set_bl33 (set_h_attr (fun x => u32 (SET_SECURITY_STATE cfg x (NON_SECURE cfg))))) ;;;
  (if RPI3_DIRECT_LINUX_BOOT cfg then
     if RPI3_BL33_IN_AARCH32 cfg then
       VERBOSE "rpi4: Preparing to boot 32-bit Linux kernel" [] ;;;
       wr (set_bl33 (set_args (fun _ => 0) (fun a => a) (fun a => a) (fun a => a))) ;;;
       wr (set_bl33 (set_args (fun a => a) (fun _ => u32 (Z.lnot 0)) (fun a => a) (fun a => a))) ;;;
       dtb <- rpi4_get_dtb_address cfg stub ;;
       wr (set_bl33 (set_args (fun a => a) (fun a => a) (fun _ => dtb) (fun a => a)))
     else
       VERBOSE "rpi4: Preparing to boot 64-bit Linux kernel" [] ;;;
       dtb <- rpi4_get_dtb_address cfg stub ;;
       wr (set_bl33 (set_args (fun _ => dtb) (fun a => a) (fun a => a) (fun a => a))) ;;;
       wr (set_bl33 (set_args (fun a => a) (fun _ => 0) (fun a => a) (fun a => a))) ;;;
       wr (set_bl33 (set_args (fun a => a) (fun a => a) (fun _ => 0) (fun a => a))) ;;;
       wr (set_bl33 (set_args (fun a => a) (fun a => a) (fun a => a) (fun _ => 0)))
   else ret tt).

(** ** Address-space setup *)

Definition mmap_add_region {S : Type}
    (base_pa base_va size : Z) (attr : list mmap_attr) : run S unit :=
  emit (Ev_mmap_add_region base_pa base_va size attr).

Definition rpi3_setup_page_tables {S : Type} (cfg : build_config) : run S unit :=
  emit (Ev_rpi3_setup_page_tables
          ([BL31_BASE cfg; BL31_END cfg - BL31_BASE cfg;
            BL_CODE_BASE cfg; BL_CODE_END cfg;
            BL_RO_DATA_BASE cfg; BL_RO_DATA_END cfg]
           ++ (if USE_COHERENT_MEM cfg
               then [BL_COHERENT_RAM_BASE cfg; BL_COHERENT_RAM_END cfg]
               else []))).

Definition enable_mmu_el3 {S : Type} (flags : Z) : run S unit :=
  emit (Ev_enable_mmu_el3 flags).

Definition bl31_plat_arch_setup (cfg : build_config) (stub : armstub8) : run unit unit :=
  (if stub_magic stub =? 0 then
     let dtb_region := dtb_ptr32 stub in
     let dtb_region := Z.land dtb_region (u64 (Z.lnot 0x1fffff)) in
     mmap_add_region dtb_region dtb_region (u32 (Z.shiftl 4 20))
       [MT_MEMORY; MT_RW; MT_NS]
   else ret tt) ;;;
  mmap_add_region 0 0 4096 [MT_NON_CACHEABLE; MT_RW; MT_SECURE] ;;;
  rpi3_setup_page_tables cfg ;;;
  enable_mmu_el3 0.

(** ** Device-tree patcher *)

(** libfdt and the fixup helpers, over whatever holds the blob.  A call that
    edits the blob returns its status and the blob after the call. *)
Class FdtLib (T : Type) : Type := {
  fdt_check_header : T -> Z -> Z;
  fdt_open_into : T -> Z -> Z -> Z -> Z * T;
  dt_add_psci_node : T -> Z -> Z * T;
  dt_add_psci_cpu_enable_methods : T -> Z -> Z * T;
  fdt_add_reserved_memory : T -> Z -> string -> Z -> Z -> Z * T;
  fdt_node_offset_by_compatible : T -> Z -> Z -> string -> Z;
  fdt_setprop : T -> Z -> Z -> string -> list Z -> Z -> Z * T;
  fdt_path_offset : T -> Z -> string -> Z;
  fdt_setprop_string : T -> Z -> Z -> string -> string -> Z * T;
  fdt_pack : T -> Z -> Z * T;
  fdt_blob_size : T -> Z -> Z
}.

(** [cpu_to_fdt32] on a little-endian core swaps the four bytes. *)
Definition cpu_to_fdt32 (x : Z) : Z :=
  Z.lor (Z.shiftl (Z.land x 0xff) 24)
    (Z.lor (Z.shiftl (Z.land x 0xff00) 8)
       (Z.lor (Z.land (Z.shiftr x 8) 0xff00)
          (Z.land (Z.shiftr x 24) 0xff))).

(** The first [len] bytes of a [uint32_t] array as it lies in memory. *)
Definition array_bytes (words : list Z) (len : nat) : list Z :=
  firstn len (flat_map le32enc_bytes words).

Definition rpi4_prepare_dtb {T : Type} `{FdtLib T}
    (cfg : build_config) (stub : armstub8) : run T unit :=
  dtb <- rpi4_get_dtb_address cfg stub ;;
  chk <- query (fun w => fdt_check_header w dtb) (Ev_fdt_check_header dtb) ;;
  if c_true chk then ret tt
  else
    r <- update (fun w => fdt_open_into w dtb dtb 0x100000)
           (Ev_fdt_open_into dtb dtb 0x100000) ;;
    if r <? 0 then ERROR "Invalid Device Tree at %p: error %d" [dtb; r]
    else
      r <- update (fun w => dt_add_psci_node w dtb) (Ev_dt_add_psci_node dtb) ;;
      if c_true r then ERROR "Failed to add PSCI Device Tree node" []
      else
        r <- update (fun w => dt_add_psci_cpu_enable_methods w dtb)
               (Ev_dt_add_psci_cpu_enable_methods dtb) ;;
        if c_true r then
          ERROR "Failed to add PSCI cpu enable methods in Device Tree" []
        else
          r <- update (fun w => fdt_add_reserved_memory w dtb "atf@0" 0 0x80000)
                 (Ev_fdt_add_reserved_memory dtb "atf@0" 0 0x80000) ;;
          (if c_true r then WARN "Failed to add reserved memory nodes to DT." []
           else ret tt) ;;;
          offs <- query (fun w => fdt_node_offset_by_compatible w dtb 0 "arm,gic-400")
                    (Ev_fdt_node_offset_by_compatible dtb 0 "arm,gic-400") ;;
          let gic_int_prop := [cpu_to_fdt32 1; cpu_to_fdt32 9; cpu_to_fdt32 0x0f04] in
          update (fun w => fdt_setprop w dtb offs "interrupts" (array_bytes gic_int_prop 12) 12)
            (Ev_fdt_setprop dtb offs "interrupts" (array_bytes gic_int_prop 12) 12) ;;;
          offs <- query (fun w => fdt_path_offset w dtb "/chosen")
                    (Ev_fdt_path_offset dtb "/chosen") ;;
          update (fun w => fdt_setprop_string w dtb offs "stdout-path" "serial0")
            (Ev_fdt_setprop_string dtb offs "stdout-path" "serial0") ;;;
          r <- update (fun w => fdt_pack w dtb) (Ev_fdt_pack dtb) ;;
          (if r <? 0 then ERROR "Failed to pack Device Tree at %p: error %d" [dtb; r]
           else ret tt) ;;;
          size <- rd (fun w => fdt_blob_size w dtb) ;;
          emit (Ev_clean_dcache_range dtb size) ;;;
          INFO "Changed device tree to advertise PSCI." [].

(** ** Mailbox interrupt handler *)

(** The collaborators of the handler answer through a [platform]: the
    interrupt controller, the device registers and the co-processor calls
    that write through a pointer ([vc_clock_out x] is what [*clock] holds
    after [rpi4_vc_get_clock] when it held [x] before).  [ClockRate_uninit]
    is the indeterminate content of the handler's local [ClockRate]. *)
Record platform : Type := {
  gic_acknowledge : Z;
  gic_interrupt_id : Z -> Z;
  dev_read : Z -> Z;
  vc_clock_out : Z -> Z;
  vc_pwm_out : Z -> Z;
  ClockRate_uninit : Z
}.

Section Handler.
Variable p : platform.

Definition plat_ic_acknowledge_interrupt : run memory Z :=
  let irq := u32 (gic_acknowledge p) in
  emit (Ev_acknowledge_interrupt irq) ;;; ret irq.

Definition plat_ic_get_interrupt_id (irq : Z) : Z := u32 (gic_interrupt_id p irq).

Definition plat_ic_end_of_interrupt (irq : Z) : run memory unit :=
  emit (Ev_end_of_interrupt irq).

Definition console_flush : run memory unit := emit Ev_console_flush.

Definition mmio_read_32 (addr : Z) : run memory Z :=
  let v := u32 (dev_read p addr) in
  emit (Ev_mmio_read_32 addr v) ;;; ret v.

(** [rpi4_vc_get_clock(&x)] and [rpi4_vc_get_pwm(&x)]: the result is the
    content of [x] after the call. *)
Definition rpi4_vc_get_clock (x : Z) : run memory Z :=
  emit Ev_vc_get_clock ;;; ret (u32 (vc_clock_out p x)).

Definition rpi4_vc_get_pwm (x : Z) : run memory Z :=
  emit Ev_vc_get_pwm ;;; ret (u32 (vc_pwm_out p x)).

Definition rpi4_vc_set_clock (clock : Z) : run memory unit :=
  emit (Ev_vc_set_clock clock).

Definition rpi4_vc_set_pwm (val : Z) : run memory unit :=
  emit (Ev_vc_set_pwm val).

Definition le32enc (a u : Z) : run memory unit :=
  wr (fun m => store_bytes m a (le32enc_bytes u)).

(** The [ERROR("interrupt: PCC handshake ...")] line with its ten arguments. *)
Definition ERROR_pcc_handshake (pcc_region : Z) : run memory unit :=
  cmd <- rd (fun m => load16 m (pcc_region_t.Command pcc_region)) ;;
  stat <- rd (fun m => load16 m (pcc_region_t.Status pcc_region)) ;;
  payload <- rd (fun m => load_bytes m (pcc_region_t.ComSpace pcc_region 0) 8) ;;
  ERROR "interrupt: PCC handshake cmd=%x stat=%x (%x:%x:%x:%x:%x:%x:%x:%x)"
    (cmd :: stat :: payload).

Definition generic_mb_interrupt_handler (id flags handle cookie : Z) : run memory Z :=
  let ClockRate := u32 (ClockRate_uninit p) in
  irq <- plat_ic_acknowledge_interrupt ;;
  let intr := plat_ic_get_interrupt_id irq in
  console_flush ;;;
  (if intr =? SECURE_TRIGGER then
     mbox_val <- mmio_read_32 (0xFF800000 + 0xc0) ;;
     mmio_write_32 (0xFF800000 + 0xc0) mbox_val ;;;
     ClockRate <-
       (if c_true (Z.land mbox_val 0x10000000) then
          let pcc_region := 0x1f0000 in
          Command <- rd (fun m => load16 m (pcc_region_t.Command pcc_region)) ;;
          ClockRate <-
            (if Command =? 0 then
               counter <- mmio_read_32 0xFE003004 ;;
               ClockRate <- rpi4_vc_get_clock ClockRate ;;
               le32enc (pcc_region_t.ComSpace pcc_region 0) counter ;;;
               let ClockRate := ClockRate / 100000000 in
               let counter := u32 (counter * ClockRate) in
               let counter := counter / 15 in
               le32enc (pcc_region_t.ComSpace pcc_region 4) counter ;;;
               ret ClockRate
             else
               ERROR_pcc_handshake pcc_region ;;;
               ret ClockRate) ;;
          wr (fun m => store32 m (pcc_region_t.Signature pcc_region) 0x50434300) ;;;
          wr (fun m => store16 m (pcc_region_t.Command pcc_region) 0) ;;;
          wr (fun m => store16 m (pcc_region_t.Status pcc_region) 0x1) ;;;
          ret ClockRate
        else ret ClockRate) ;;
     ClockRate <-
       (if c_true (Z.land mbox_val 0x20000000) then
          let pcc_region := 0x1f0080 in
          ClockRate <- rpi4_vc_get_pwm ClockRate ;;
          ERROR_pcc_handshake pcc_region ;;;
          wr (fun m => store32 m (pcc_region_t.Signature pcc_region) 0x50434301) ;;;
          wr (fun m => store16 m (pcc_region_t.Command pcc_region) 0) ;;;
          wr (fun m => store16 m (pcc_region_t.Status pcc_region) 0x1) ;;;
          ret ClockRate
        else ret ClockRate) ;;
     (if c_true (Z.land mbox_val 0x40000000) then
        rpi4_vc_set_pwm (Z.land mbox_val 0xFF) ;;;
        INFO "Fan speed %d" [Z.land mbox_val 0xFF]
      else
        let mbox_val :=
          if mbox_val >? 2200 then 2200
          else if mbox_val <? 600 then 600
          else mbox_val in
        rpi4_vc_set_clock (u32 (mbox_val * 1000000))) ;;;
     (let pcc_region := 0x1f0000 in
      wr (fun m => store32 m (pcc_region_t.Signature pcc_region) 0x50434300) ;;;
      wr (fun m => store16 m (pcc_region_t.Command pcc_region) 0) ;;;
      wr (fun m => store16 m (pcc_region_t.Status pcc_region) 0x1) ;;;
      let pcc_region := 0x1f0080 in
      wr (fun m => store32 m (pcc_region_t.Signature pcc_region) 0x50434301) ;;;
      wr (fun m => store16 m (pcc_region_t.Command pcc_region) 0) ;;;
      wr (fun m => store16 m (pcc_region_t.Status pcc_region) 0x1))
   else ret tt) ;;;
  plat_ic_end_of_interrupt irq ;;;
  ret 0.
End Handler.

(** ** Observations on traces and memory *)

Definition is_acknowledge (e : event) : bool :=
  match e with Ev_acknowledge_interrupt _ => true | _ => false end.
Definition is_end_of_interrupt (e : event) : bool :=
  match e with Ev_end_of_interrupt _ => true | _ => false end.
Definition is_vc_get_clock (e : event) : bool :=
  match e with Ev_vc_get_clock => true | _ => false end.
Definition is_vc_set_clock (e : event) : bool :=
  match e with Ev_vc_set_clock _ => true | _ => false end.
Definition is_vc_get_pwm (e : event) : bool :=
  match e with Ev_vc_get_pwm => true | _ => false end.
Definition is_vc_set_pwm (e : event) : bool :=
  match e with Ev_vc_set_pwm _ => true | _ => false end.
Definition is_vc_set_power (e : event) : bool :=
  match e with Ev_vc_set_power _ _ _ => true | _ => false end.
Definition is_clock_rpc (e : event) : bool := is_vc_get_clock e || is_vc_set_clock e.
Definition is_vc_rpc (e : event) : bool :=
  is_clock_rpc e || is_vc_get_pwm e || is_vc_set_pwm e || is_vc_set_power e.
Definition is_mmio (e : event) : bool :=
  match e with Ev_mmio_read_32 _ _ | Ev_mmio_write_32 _ _ => true | _ => false end.

Definition count (f : event -> bool) (t : list event) : nat := List.length (filter f t).

Definition set_clock_args (t : list event) : list Z :=
  flat_map (fun e => match e with Ev_vc_set_clock v => [v] | _ => [] end) t.
Definition set_pwm_args (t : list event) : list Z :=
  flat_map (fun e => match e with Ev_vc_set_pwm v => [v] | _ => [] end) t.
Definition mmio_reads (t : list event) : list (Z * Z) :=
  flat_map (fun e => match e with Ev_mmio_read_32 a v => [(a, v)] | _ => [] end) t.
Definition errors (t : list event) : list (string * list Z) :=
  flat_map (fun e => match e with Ev_ERROR f a => [(f, a)] | _ => [] end) t.

(** The idle/complete triple of a mailbox region. *)
Definition pcc_idle (m : memory) (base signature : Z) : Prop :=
  load32 m (pcc_region_t.Signature base) = signature /\
  load16 m (pcc_region_t.Command base) = 0 /\
  load16 m (pcc_region_t.Status base) = 1.

Definition clamp (v lo hi : Z) : Z := Z.max lo (Z.min v hi).

(** What the handler reads from the mailbox status register, and the
    identifier of the interrupt it acknowledges. *)
Definition mbox_status (p : platform) : Z := u32 (dev_read p (0xFF800000 + 0xc0)).
Definition pending_id (p : platform) : Z :=
  plat_ic_get_interrupt_id p (u32 (gic_acknowledge p)).
(** The performance counter and the clock rate the channel-0 request sees. *)
Definition perf_counter (p : platform) : Z := u32 (dev_read p 0xFE003004).
Definition fetched_clock (p : platform) : Z :=
  u32 (vc_clock_out p (u32 (ClockRate_uninit p))).

(** The steps of the device-tree patcher, read off a trace. *)
Inductive patch_step : Type :=
| Step_check_header | Step_open_into | Step_add_psci_node
| Step_add_psci_cpu_enable_methods | Step_add_reserved_memory
| Step_set_interrupts | Step_set_stdout_path | Step_pack | Step_flush.

Definition steps_executed (t : list event) : list patch_step :=
  flat_map (fun e => match e with
                     | Ev_fdt_check_header _ _ => [Step_check_header]
                     | Ev_fdt_open_into _ _ _ _ => [Step_open_into]
                     | Ev_dt_add_psci_node _ _ => [Step_add_psci_node]
                     | Ev_dt_add_psci_cpu_enable_methods _ _ =>
                         [Step_add_psci_cpu_enable_methods]
                     | Ev_fdt_add_reserved_memory _ _ _ _ _ => [Step_add_reserved_memory]
                     | Ev_fdt_setprop _ _ _ _ _ _ => [Step_set_interrupts]
                     | Ev_fdt_setprop_string _ _ _ _ _ => [Step_set_stdout_path]
                     | Ev_fdt_pack _ _ => [Step_pack]
                     | Ev_clean_dcache_range _ _ => [Step_flush]
                     | _ => []
                     end) t.

(** The big-endian (fdt32) encoding of a list of cells. *)
Definition fdt32_bytes (cells : list Z) : list Z :=
  flat_map (fun x => [Z.land (Z.shiftr x 24) 0xff; Z.land (Z.shiftr x 16) 0xff;
                      Z.land (Z.shiftr x 8) 0xff; Z.land x 0xff]) cells.

(** The descriptors this file can leave behind: the zeroed statics, and
    whatever [bl31_early_platform_setup2], the only writer, makes of them. *)
Inductive reachable (cfg : build_config) : globals -> Prop :=
| reachable_init : reachable cfg static_init
| reachable_early_setup (g : globals) (stub : armstub8) (a0 a1 a2 a3 : Z) :
    reachable cfg g ->
    reachable cfg (state_of (bl31_early_platform_setup2 cfg stub a0 a1 a2 a3 g)).

(** ** Concrete collaborators, to run the code on *)

(** A platform whose pending interrupt is [intr], whose mailbox status
    register reads [status] and whose performance counter reads [counter];
    the co-processor reports a clock of [clock] Hz. *)
Definition sample_platform (intr status counter clock : Z) : platform :=
  {| gic_acknowledge := intr;
     gic_interrupt_id := fun irq => Z.land irq 0x3ff;
     dev_read := fun a => if a =? 0xFF8000c0 then status
                          else if a =? 0xFE003004 then counter else 0;
     vc_clock_out := fun _ => clock;
     vc_pwm_out := fun _ => 0;
     ClockRate_uninit := 0 |}.

Definition zero_memory : memory := fun _ => 0.

(** Memory that is zero but for the 16-bit command of channel 0. *)
Definition memory_with_command (cmd : Z) : memory := store16 zero_memory 0x1f0004 cmd.

Definition sample_config : build_config :=
  {| PRELOADED_BL33_BASE := None;
     RPI3_PRELOADED_DTB_BASE := None;
     RPI3_DIRECT_LINUX_BOOT := false;
     RPI3_BL33_IN_AARCH32 := false;
     USE_COHERENT_MEM := true;
     RPI4_LOCAL_CONTROL_BASE_ADDRESS := 0xff800000;
     RPI4_LOCAL_CONTROL_PRESCALER := 0xff800008;
     BL31_BASE := 0; BL31_END := 0x80000;
     BL_CODE_BASE := 0; BL_CODE_END := 0x10000;
     BL_RO_DATA_BASE := 0x10000; BL_RO_DATA_END := 0x20000;
     BL_COHERENT_RAM_BASE := 0x20000; BL_COHERENT_RAM_END := 0x21000;
     SECURE := 0;
     NON_SECURE := 1;
     SET_SECURITY_STATE := fun x s => Z.lor (Z.land x (Z.lnot 1)) s;
     rpi3_get_spsr_for_bl33_entry := 0x3c9 |}.

Definition sample_stub (magic dtb kernel : Z) : armstub8 :=
  {| stub_magic_word := magic; dtb_ptr32_word := dtb; kernel_entry32_word := kernel |}.

(** A stand-in for libfdt that keeps the properties set so far and answers
    every editing step with the status the script gives for it. *)
Definition prop_store : Type := list (Z * string * list Z).

Definition string_bytes (s : string) : list Z :=
  map (fun c => Z.of_N (Ascii.N_of_ascii c)) (list_ascii_of_string s) ++ [0].

Definition scripted_fdt (status : patch_step -> Z) : FdtLib prop_store :=
  {| fdt_check_header := fun _ _ => status Step_check_header;
     fdt_open_into := fun w _ _ _ => (status Step_open_into, w);
     dt_add_psci_node := fun w _ => (status Step_add_psci_node, w);
     dt_add_psci_cpu_enable_methods := fun w _ =>
       (status Step_add_psci_cpu_enable_methods, w);
     fdt_add_reserved_memory := fun w _ _ _ _ => (status Step_add_reserved_memory, w);
     fdt_node_offset_by_compatible := fun _ _ _ _ => 0x120;
     fdt_setprop := fun w _ off name val _ =>
       if status Step_set_interrupts =? 0 then (0, (off, name, val) :: w)
       else (status Step_set_interrupts, w);
     fdt_path_offset := fun _ _ _ => 0x40;
     fdt_setprop_string := fun w _ off name str =>
       if status Step_set_stdout_path =? 0 then (0, (off, name, string_bytes str) :: w)
       else (status Step_set_stdout_path, w);
     fdt_pack := fun w _ => (status Step_pack, w);
     fdt_blob_size := fun w _ => 0x1000 |}.

Definition all_succeed : patch_step -> Z := fun _ => 0.
Definition fails_at (s : patch_step) (code : Z) : patch_step -> Z :=
  fun s' => match s, s' with
            | Step_check_header, Step_check_header
            | Step_open_into, Step_open_into
            | Step_add_psci_node, Step_add_psci_node
            | Step_add_psci_cpu_enable_methods, Step_add_psci_cpu_enable_methods
            | Step_add_reserved_memory, Step_add_reserved_memory
            | Step_set_interrupts, Step_set_interrupts
            | Step_set_stdout_path, Step_set_stdout_path
            | Step_pack, Step_pack
            | Step_flush, Step_flush => code
            | _, _ => 0
            end.

(** ** The two spec sentences about the channel bits, as they are written *)

(** "Status register value 0x10000000 (only bit 28 set): exactly one get-pwm
    RPC, the idle triple in the channel 1 region, exactly one
    acknowledge/end-of-interrupt pair, no clock or power RPC." *)
Definition only_bit28_as_written (p : platform) (m : memory) : Prop :=
  pending_id p = SECURE_TRIGGER ->
  mbox_status p = 0x10000000 ->
  let r := generic_mb_interrupt_handler p 0 0 0 0 m in
  count is_vc_get_pwm (trace_of r) = 1%nat /\
  pcc_idle (state_of r) 0x1f0080 0x50434301 /\
  count is_acknowledge (trace_of r) = 1%nat /\
  count is_end_of_interrupt (trace_of r) = 1%nat /\
  count is_clock_rpc (trace_of r) = 0%nat /\
  count is_vc_set_power (trace_of r) = 0%nat.

(** "Bit 27 set and channel-0 command 0: read the performance counter, fetch
    the clock rate, write the counter and the scaled counter into the
    payload." *)
Definition bit27_as_written (p : platform) (m : memory) : Prop :=
  pending_id p = SECURE_TRIGGER ->
  Z.testbit (mbox_status p) 27 = true ->
  load16 m 0x1f0004 = 0 ->
  let r := generic_mb_interrupt_handler p 0 0 0 0 m in
  In (0xFE003004, perf_counter p) (mmio_reads (trace_of r)) /\
  count is_vc_get_clock (trace_of r) = 1%nat /\
  load_bytes (state_of r) 0x1f0008 4 = le32enc_bytes (perf_counter p) /\
  load_bytes (state_of r) 0x1f000c 4
  = le32enc_bytes (perf_counter p * (fetched_clock p / 100000000) / 15).

(** ** Platform setup *)

(** [interrupt_prop_t] and [gicv2_driver_data_t] as [INTR_PROP_DESC] and the
    initialiser of [rpi4_gic_data] fill them. *)
Record interrupt_prop_t : Type := {
  intr_num : Z;
  intr_pri : Z;
  intr_grp : Z;
  intr_cfg : Z
}.

Record gicv2_driver_data_t : Type := {
  gicd_base : Z;
  gicc_base : Z;
  interrupt_props : list interrupt_prop_t;
  interrupt_props_num : Z
}.

(** What the late setup takes from outside this file: constants of
    [platform_def.h], [gic_common.h] and [interrupt_mgmt.h], the macro
    [set_interrupt_rm_flag] (the flag word after the call, from the flag
    word before and the security state), and what the two co-processor
    queries that only the setup makes leave in the variable they are
    given.  [setup_ClockRate_uninit] is the indeterminate content of the
    local [ClockRate]. *)
Record setup_env : Type := {
  RPI4_GIC_GICD_BASE : Z;
  RPI4_GIC_GICC_BASE : Z;
  GIC_HIGHEST_SEC_PRIORITY : Z;
  GICV2_INTR_GROUP0 : Z;
  GIC_INTR_CFG_LEVEL : Z;
  INTR_TYPE_EL3 : Z;
  set_interrupt_rm_flag : Z -> Z -> Z;
  vc_board_revision_out : Z -> Z;
  vc_max_clock_out : Z -> Z;
  setup_ClockRate_uninit : Z
}.

Definition rpi4_interrupt_props (env : setup_env) : list interrupt_prop_t :=
  [ {| intr_num := SECURE_TRIGGER;
       intr_pri := GIC_HIGHEST_SEC_PRIORITY env;
       intr_grp := GICV2_INTR_GROUP0 env;
       intr_cfg := GIC_INTR_CFG_LEVEL env |} ].

Definition rpi4_gic_data (env : setup_env) : gicv2_driver_data_t :=
  {| gicd_base := RPI4_GIC_GICD_BASE env;
     gicc_base := RPI4_GIC_GICC_BASE env;
     interrupt_props := rpi4_interrupt_props env;
     interrupt_props_num := Z.of_nat (List.length (rpi4_interrupt_props env)) |}.

(** The address of a function that can be registered as a handler. *)
Inductive handler_ptr : Type := addr_generic_mb_interrupt_handler.

Definition invoke (h : handler_ptr) (p : platform) (id flags handle cookie : Z)
    : run memory Z :=
  match h with
  | addr_generic_mb_interrupt_handler =>
      generic_mb_interrupt_handler p id flags handle cookie
  end.

(** The late setup also talks to the interrupt controller driver and the
    interrupt framework, and makes two more co-processor queries. *)
Inductive setup_event : Type :=
| Sev (e : event)
| Sev_gicv2_driver_init (plat_driver_data : gicv2_driver_data_t)
| Sev_gicv2_distif_init
| Sev_gicv2_pcpu_distif_init
| Sev_gicv2_cpuif_enable
| Sev_register_interrupt_type_handler (type : Z) (handler : handler_ptr) (flags : Z)
| Sev_vc_get_board_revision
| Sev_vc_max_clock.

Definition setup (S A : Type) : Type := S -> A * S * list setup_event.

Definition setup_ret {S A : Type} (a : A) : setup S A := fun s => (a, s, []).

Definition setup_bind {S A B : Type} (c : setup S A) (k : A -> setup S B) : setup S B :=
  fun s =>
    let '(a, s1, t1) := c s in
    let '(b, s2, t2) := k a s1 in
    (b, s2, t1 ++ t2).

Definition setup_emit {S : Type} (e : setup_event) : setup S unit :=
  fun s => (tt, s, [e]).

Definition setup_state_of {S A : Type} (r : A * S * list setup_event) : S :=
  snd (fst r).
Definition setup_trace_of {S A : Type} (r : A * S * list setup_event)
    : list setup_event := snd r.

(** A computation of the patcher or on the mailbox regions, run as a part
    of the setup.  The device-tree blob lies in memory, at the address
    [rpi4_get_dtb_address] gives, and libfdt edits it there: the setup has
    the one memory for both. *)
Definition lift_run {S A : Type} (c : run S A) : setup S A :=
  fun s =>
    let r := c s in
    (result_of r, state_of r, map Sev (trace_of r)).

Declare Scope setup_scope.
Delimit Scope setup_scope with setup.
Notation "x <- c ;; k" := (setup_bind c (fun x => k))
  (at level 61, c at next level, right associativity) : setup_scope.
Notation "c ;;; k" := (setup_bind c (fun _ => k))
  (at level 61, right associativity) : setup_scope.

Definition rpi4_vc_set_power {S : Type} (device state wait : Z) : run S unit :=
  emit (Ev_vc_set_power device state wait).

Definition rpi4_vc_get_board_revision {S : Type} (env : setup_env) (x : Z)
    : setup S Z :=
  fun s => (u32 (vc_board_revision_out env x), s, [Sev_vc_get_board_revision]).

Definition rpi4_vc_max_clock {S : Type} (env : setup_env) (x : Z) : setup S Z :=
  fun s => (u32 (vc_max_clock_out env x), s, [Sev_vc_max_clock]).

Definition bl31_platform_setup `{FdtLib memory}
    (cfg : build_config) (stub : armstub8) (env : setup_env) (p : platform)
    : setup memory unit :=
  (let ClockRate := u32 (setup_ClockRate_uninit env) in
   lift_run (rpi4_prepare_dtb cfg stub) ;;;
   setup_emit (Sev_gicv2_driver_init (rpi4_gic_data env)) ;;;
   setup_emit Sev_gicv2_distif_init ;;;
   setup_emit Sev_gicv2_pcpu_distif_init ;;;
   setup_emit Sev_gicv2_cpuif_enable ;;;
   let int_flag := 0 in
   let int_flag := u32 (set_interrupt_rm_flag env int_flag (NON_SECURE cfg)) in
   setup_emit (Sev_register_interrupt_type_handler (INTR_TYPE_EL3 env)
                 addr_generic_mb_interrupt_handler int_flag) ;;;
   lift_run (rpi4_vc_set_power 4 1 1) ;;;
   lift_run (rpi4_vc_set_power 5 1 1) ;;;
   lift_run (rpi4_vc_set_power 6 1 1) ;;;
   ClockRate <- rpi4_vc_get_board_revision env ClockRate ;;
   lift_run (INFO "board rev %x" [ClockRate]) ;;;
   ClockRate <- lift_run (rpi4_vc_get_clock p ClockRate) ;;
   lift_run (INFO "clock rate %d" [ClockRate]) ;;;
   ClockRate <- rpi4_vc_max_clock env ClockRate ;;
   lift_run (INFO "max clock rate %d" [ClockRate]) ;;;
   lift_run (rpi4_vc_set_pwm 0) ;;;
   (let pcc_region := 0x1f0000 in
    lift_run (wr (fun m => store32 m (pcc_region_t.Signature pcc_region) 0x50434300)) ;;;
    lift_run (wr (fun m => store16 m (pcc_region_t.Command pcc_region) 0)) ;;;
    lift_run (wr (fun m => store16 m (pcc_region_t.Status pcc_region) 0x1)) ;;;
    let pcc_region := 0x1f0080 in
    lift_run (wr (fun m => store32 m (pcc_region_t.Signature pcc_region) 0x50434301)) ;;;
    lift_run (wr (fun m => store16 m (pcc_region_t.Command pcc_region) 0)) ;;;
    lift_run (wr (fun m => store16 m (pcc_region_t.Status pcc_region) 0x1))))%setup.

(** ** More observations *)

Definition mmio_writes (t : list event) : list (Z * Z) :=
  flat_map (fun e => match e with Ev_mmio_write_32 a v => [(a, v)] | _ => [] end) t.
Definition infos (t : list event) : list (string * list Z) :=
  flat_map (fun e => match e with Ev_INFO f a => [(f, a)] | _ => [] end) t.
Definition warnings (t : list event) : list (string * list Z) :=
  flat_map (fun e => match e with Ev_WARN f a => [(f, a)] | _ => [] end) t.
Definition checked_headers (t : list event) : list Z :=
  flat_map (fun e => match e with Ev_fdt_check_header fdt _ => [fdt] | _ => [] end) t.
Definition flushes (t : list event) : list (Z * Z) :=
  flat_map (fun e => match e with Ev_clean_dcache_range a n => [(a, n)] | _ => [] end) t.
Definition mapped_regions (t : list event) : list (Z * Z * Z * list mmap_attr) :=
  flat_map (fun e => match e with
                     | Ev_mmap_add_region pa va size attr => [(pa, va, size, attr)]
                     | _ => []
                     end) t.

(** The blob address each libfdt call and the cache flush of a trace is made
    on. *)
Definition fdt_addresses (t : list event) : list Z :=
  flat_map (fun e => match e with
                     | Ev_fdt_check_header fdt _
                     | Ev_fdt_open_into fdt _ _ _
                     | Ev_dt_add_psci_node fdt _
                     | Ev_dt_add_psci_cpu_enable_methods fdt _
                     | Ev_fdt_add_reserved_memory fdt _ _ _ _
                     | Ev_fdt_node_offset_by_compatible fdt _ _ _
                     | Ev_fdt_setprop fdt _ _ _ _ _
                     | Ev_fdt_path_offset fdt _ _
                     | Ev_fdt_setprop_string fdt _ _ _ _
                     | Ev_fdt_pack fdt _
                     | Ev_clean_dcache_range fdt _ => [fdt]
                     | _ => []
                     end) t.
Definition packs (t : list event) : list Z :=
  flat_map (fun e => match e with Ev_fdt_pack _ ret => [ret] | _ => [] end) t.
Definition open_buffers (t : list event) : list (Z * Z) :=
  flat_map (fun e => match e with
                     | Ev_fdt_open_into _ buf bufsize _ => [(buf, bufsize)]
                     | _ => []
                     end) t.

Definition b2n (b : bool) : nat := if b then 1%nat else 0%nat.

(** The bytes of the two mailbox regions the firmware stores to: the 16
    bytes of channel 0 and the 8 header bytes of channel 1. *)
Definition in_channel0 (a : Z) : Prop := 0x1f0000 <= a < 0x1f0010.
Definition in_channel1_header (a : Z) : Prop := 0x1f0080 <= a < 0x1f0088.

(** Two address ranges [[a, a + n)] and [[b, b + k)] that share no byte. *)
Definition disjoint_ranges (a n b k : Z) : Prop := a + n <= b \/ b + k <= a.

Definition sample_env : setup_env :=
  {| RPI4_GIC_GICD_BASE := 0xff841000;
     RPI4_GIC_GICC_BASE := 0xff842000;
     GIC_HIGHEST_SEC_PRIORITY := 0;
     GICV2_INTR_GROUP0 := 0;
     GIC_INTR_CFG_LEVEL := 0;
     INTR_TYPE_EL3 := 1;
     set_interrupt_rm_flag := fun flag ss => Z.lor flag (Z.shiftl 1 ss);
     vc_board_revision_out := fun _ => 0xc03111;
     vc_max_clock_out := fun _ => 1500000000;
     setup_ClockRate_uninit := 0 |}.

(** A stand-in for libfdt that works on the blob where it lies in memory:
    opening for edit writes the magic word at the start of the buffer,
    packing writes a size word after it, and every step succeeds. *)
Definition in_memory_fdt : FdtLib memory :=
  {| fdt_check_header := fun _ _ => 0;
     fdt_open_into := fun m _ buf _ =>
       (0, store_bytes m buf [0xd0; 0x0d; 0xfe; 0xed]);
     dt_add_psci_node := fun m _ => (0, m);
     dt_add_psci_cpu_enable_methods := fun m _ => (0, m);
     fdt_add_reserved_memory := fun m _ _ _ _ => (0, m);
     fdt_node_offset_by_compatible := fun _ _ _ _ => 0x120;
     fdt_setprop := fun m _ _ _ _ _ => (0, m);
     fdt_path_offset := fun _ _ _ => 0x40;
     fdt_setprop_string := fun m _ _ _ _ => (0, m);
     fdt_pack := fun m fdt => (0, store_bytes m (fdt + 4) [0x00; 0x00; 0x10; 0x00]);
     fdt_blob_size := fun _ _ => 0x1000 |}.

(** ** Reading the blob back *)








(** ** Two more spec sentences, as they are written *)

(** The low bits of the status word: those below the channel and fan flags
    (bits 28 to 30). *)
Definition requested_clock (status : Z) : Z := Z.land status 0x0fffffff.

(** "Else (bit 30 clear): treat the low bits as a requested clock frequency
    in MHz, clamp to the inclusive range [600, 2200], issue a clock-set RPC
    for the clamped value x 1,000,000": the value sent is the clamp of the
    requested value, the low bits of the status word. *)
Definition clock_request_as_written (p : platform) (m : memory) : Prop :=
  pending_id p = SECURE_TRIGGER ->
  Z.testbit (mbox_status p) 30 = false ->
  set_clock_args (trace_of (generic_mb_interrupt_handler p 0 0 0 0 m))
  = [clamp (requested_clock (mbox_status p)) 600 2200 * 1000000].


(** * Properties *)

(** ** Integer and bit facts *)

Lemma land_pow2 (v k : Z) :
  0 <= k -> Z.land v (2 ^ k) = if Z.testbit v k then 2 ^ k else 0.
Proof.
  intros Hk. apply Z.bits_inj'. intros n Hn.
  rewrite Z.land_spec, Z.pow2_bits_eqb by assumption.
  destruct (Z.eqb_spec k n) as [->|Hne].
  - destruct (Z.testbit v n); simpl.
    + now rewrite Z.pow2_bits_true.
    + now rewrite Z.bits_0.
  - rewrite andb_false_r.
    destruct (Z.testbit v k).
    + now rewrite Z.pow2_bits_false.
    + now rewrite Z.bits_0.
Qed.

Lemma c_true_land_pow2 (v k : Z) :
  0 <= k -> c_true (Z.land v (2 ^ k)) = Z.testbit v k.
Proof.
  intros Hk. rewrite land_pow2 by assumption. unfold c_true.
  destruct (Z.testbit v k); [|reflexivity].
  assert (0 < 2 ^ k) by (apply Z.pow_pos_nonneg; lia).
  destruct (Z.eqb_spec (2 ^ k) 0); [lia | reflexivity].
Qed.

Lemma c_true_bit28 v : c_true (Z.land v 0x10000000) = Z.testbit v 28.
Proof. exact (c_true_land_pow2 v 28 ltac:(lia)). Qed.
Lemma c_true_bit29 v : c_true (Z.land v 0x20000000) = Z.testbit v 29.
Proof. exact (c_true_land_pow2 v 29 ltac:(lia)). Qed.
Lemma c_true_bit30 v : c_true (Z.land v 0x40000000) = Z.testbit v 30.
Proof. exact (c_true_land_pow2 v 30 ltac:(lia)). Qed.

Lemma u32_range v : 0 <= u32 v < 2 ^ 32.
Proof. unfold u32. apply Z.mod_pos_bound. lia. Qed.

Lemma u32_small v : 0 <= v < 2 ^ 32 -> u32 v = v.
Proof. intros. unfold u32. now apply Z.mod_small. Qed.

Lemma land_ff_range v : 0 <= Z.land v 0xff < 2 ^ 8.
Proof.
  change 0xff with (Z.ones 8). rewrite Z.land_ones by lia.
  apply Z.mod_pos_bound. lia.
Qed.

Lemma u8_land_ff v : u8 (Z.land v 0xff) = Z.land v 0xff.
Proof. unfold u8. apply Z.mod_small. apply land_ff_range. Qed.

(** The clamp the handler writes with two comparisons. *)
Lemma clamp_code (v : Z) :
  (if v >? 2200 then 2200 else if v <? 600 then 600 else v) = clamp v 600 2200.
Proof.
  unfold clamp.
  destruct (Z.gtb_spec v 2200); [lia|].
  destruct (Z.ltb_spec v 600); lia.
Qed.

Lemma clamp_range v : 600 <= clamp v 600 2200 <= 2200.
Proof. unfold clamp. lia. Qed.

Lemma set_clock_value v :
  u32 ((if v >? 2200 then 2200 else if v <? 600 then 600 else v) * 1000000)
  = clamp v 600 2200 * 1000000.
Proof.
  rewrite clamp_code. apply u32_small.
  pose proof (clamp_range v). change (2 ^ 32) with 4294967296. lia.
Qed.

(** ** Memory facts *)

Lemma load8_store8_same m a v : load8 (store8 m a v) a = u8 v.
Proof. unfold load8, store8. now rewrite Z.eqb_refl. Qed.

Lemma load8_store8_other m a b v : a <> b -> load8 (store8 m b v) a = load8 m a.
Proof.
  intros Hne. unfold load8, store8.
  destruct (Z.eqb_spec a b); [contradiction | reflexivity].
Qed.

Lemma load_bytes_store8_out m b v a n :
  b < a \/ a + Z.of_nat n <= b ->
  load_bytes (store8 m b v) a n = load_bytes m a n.
Proof.
  revert a. induction n as [|n IH]; intros a Hout; [reflexivity|].
  cbn [load_bytes]. rewrite load8_store8_other by lia.
  rewrite IH by lia. reflexivity.
Qed.

Lemma load_bytes_store16_out m b v a n :
  b + 1 < a \/ a + Z.of_nat n <= b ->
  load_bytes (store16 m b v) a n = load_bytes m a n.
Proof.
  intros Hout. unfold store16.
  now rewrite !load_bytes_store8_out by lia.
Qed.

Lemma load_bytes_store32_out m b v a n :
  b + 3 < a \/ a + Z.of_nat n <= b ->
  load_bytes (store32 m b v) a n = load_bytes m a n.
Proof.
  intros Hout. unfold store32.
  now rewrite !load_bytes_store16_out by lia.
Qed.

Lemma load_bytes_store_bytes_out bs m b a n :
  b + Z.of_nat (List.length bs) <= a \/ a + Z.of_nat n <= b ->
  load_bytes (store_bytes m b bs) a n = load_bytes m a n.
Proof.
  revert m b. induction bs as [|x bs IH]; intros m b Hout; [reflexivity|].
  cbn [store_bytes List.length] in *.
  rewrite IH by lia. apply load_bytes_store8_out. lia.
Qed.

Lemma load_bytes_le32enc m a u :
  load_bytes (store_bytes m a (le32enc_bytes u)) a 4 = le32enc_bytes u.
Proof.
  unfold le32enc_bytes. cbn [store_bytes load_bytes].
  repeat (rewrite ?load8_store8_same, ?u8_land_ff;
          try rewrite load8_store8_other by lia).
  reflexivity.
Qed.

(** ** Running the handler symbolically *)

Ltac run_step :=
  cbv beta iota zeta delta
    [generic_mb_interrupt_handler bind ret emit rd wr
     plat_ic_acknowledge_interrupt console_flush mmio_read_32 mmio_write_32
     rpi4_vc_get_clock rpi4_vc_get_pwm rpi4_vc_set_clock rpi4_vc_set_pwm
     le32enc ERROR_pcc_handshake ERROR INFO plat_ic_end_of_interrupt
     trace_of state_of result_of fst snd app
     pcc_region_t.Signature pcc_region_t.Command pcc_region_t.Status
     pcc_region_t.ComSpace].

Ltac run_branch :=
  match goal with
  | [ H : ?c = _ |- context [if ?c then _ else _] ] => rewrite H
  | [ |- context [if c_true ?c then _ else _] ] => destruct (c_true c) eqn:?
  | [ |- context [if (?c =? 0) then _ else _] ] => destruct (c =? 0) eqn:?
  | [ |- context [if (?c =? SECURE_TRIGGER) then _ else _] ] =>
      destruct (c =? SECURE_TRIGGER) eqn:?
  end.

Ltac run_handler := run_step; repeat (run_branch; run_step).

Lemma secure_trigger_eqb p :
  pending_id p = SECURE_TRIGGER ->
  (plat_ic_get_interrupt_id p (u32 (gic_acknowledge p)) =? SECURE_TRIGGER) = true.
Proof. unfold pending_id. intros ->. reflexivity. Qed.

Lemma bit30_clear p :
  Z.testbit (mbox_status p) 30 = false ->
  c_true (Z.land (u32 (dev_read p (0xFF800000 + 0xc0))) 0x40000000) = false.
Proof. intros H. now rewrite c_true_bit30. Qed.

Lemma bit30_set p :
  Z.testbit (mbox_status p) 30 = true ->
  c_true (Z.land (u32 (dev_read p (0xFF800000 + 0xc0))) 0x40000000) = true.
Proof. intros H. now rewrite c_true_bit30. Qed.

(** The six stores that end the secure-trigger path leave both regions idle,
    whatever the memory was before. *)
Lemma reidle_both (m : memory) :
  let m' :=
    store16 (store16 (store32
      (store16 (store16 (store32 m 0x1f0000 0x50434300) (0x1f0000 + 4) 0)
         (0x1f0000 + 6) 1) 0x1f0080 0x50434301) (0x1f0080 + 4) 0) (0x1f0080 + 6) 1 in
  pcc_idle m' 0x1f0000 0x50434300 /\ pcc_idle m' 0x1f0080 0x50434301.
Proof. repeat split. Qed.

(** C9: every run of the handler, whatever interrupt is pending, starts by
    acknowledging it, ends by signalling end-of-interrupt with the value the
    acknowledge returned, does each exactly once, and returns 0.  When the
    pending identifier is not the secure trigger, nothing happens in between
    but the console flush: no device register is touched, no co-processor
    call is made and memory is left as it was. *)
Theorem handler_acknowledges_once_and_returns_zero
    (p : platform) (id flags handle cookie : Z) (m : memory) :
  let r := generic_mb_interrupt_handler p id flags handle cookie m in
  let irq := u32 (gic_acknowledge p) in
  result_of r = 0 /\
  hd_error (trace_of r) = Some (Ev_acknowledge_interrupt irq) /\
  last (trace_of r) Ev_console_flush = Ev_end_of_interrupt irq /\
  count is_acknowledge (trace_of r) = 1%nat /\
  count is_end_of_interrupt (trace_of r) = 1%nat /\
  (pending_id p <> SECURE_TRIGGER ->
   trace_of r = [Ev_acknowledge_interrupt irq; Ev_console_flush;
                 Ev_end_of_interrupt irq] /\
   count is_mmio (trace_of r) = 0%nat /\
   count is_vc_rpc (trace_of r) = 0%nat /\
   state_of r = m).
Proof.
  intros r irq. subst r irq. unfold pending_id.
  run_handler;
    (repeat apply conj; [reflexivity .. | intros Hne]);
    solve [ repeat split; reflexivity
          | exfalso; apply Hne; now apply Z.eqb_eq ].
Qed.

(** The handler on an interrupt that is not the mailbox one. *)
Lemma handler_other_interrupt_witness :
  pending_id (sample_platform 27 0x10000000 1000 1500000000) <> SECURE_TRIGGER /\
  trace_of (generic_mb_interrupt_handler
              (sample_platform 27 0x10000000 1000 1500000000) 27 0 0 0 zero_memory)
  = [Ev_acknowledge_interrupt 27; Ev_console_flush; Ev_end_of_interrupt 27].
Proof.
  assert (Hne : pending_id (sample_platform 27 0x10000000 1000 1500000000)
                <> SECURE_TRIGGER) by discriminate.
  split; [exact Hne|].
  exact (proj1 (proj2 (proj2 (proj2 (proj2 (proj2
    (handler_acknowledges_once_and_returns_zero
       (sample_platform 27 0x10000000 1000 1500000000) 27 0 0 0 zero_memory)))))
    Hne)).
Defined.

(** A set flag bit puts the status word above every clock request. *)
Lemma testbit_true_ge (v k : Z) :
  0 <= v -> 0 <= k -> Z.testbit v k = true -> 2 ^ k <= v.
Proof.
  intros Hv Hk Hbit.
  destruct (Z.lt_ge_cases v (2 ^ k)) as [Hlt|Hge]; [|exact Hge].
  apply Z.testbit_true in Hbit; [|exact Hk].
  rewrite Z.div_small in Hbit by lia. discriminate Hbit.
Qed.

Lemma requested_clock_small (v : Z) : 0 <= v < 2 ^ 28 -> requested_clock v = v.
Proof.
  intros Hv. unfold requested_clock. change 0x0fffffff with (Z.ones 28).
  rewrite Z.land_ones by lia. now apply Z.mod_small.
Qed.

(** Status words 0x100003e8 (channel-0 flag, low bits 1000) and 0x10000000
    (channel-0 flag, low bits 0), with bit 30 clear: the handler sends
    2,200,000,000 for both, where the sentence as written asks for
    1,000,000,000 and 600,000,000. *)
Lemma clock_request_counterexample :
  pending_id (sample_platform 32 0x100003e8 0 0) = SECURE_TRIGGER /\
  Z.testbit (mbox_status (sample_platform 32 0x100003e8 0 0)) 30 = false /\
  requested_clock (mbox_status (sample_platform 32 0x100003e8 0 0)) = 1000 /\
  set_clock_args
    (trace_of (generic_mb_interrupt_handler (sample_platform 32 0x100003e8 0 0)
                 0 0 0 0 zero_memory))
  = [2200000000] /\
  ~ clock_request_as_written (sample_platform 32 0x100003e8 0 0) zero_memory /\
  requested_clock (mbox_status (sample_platform 32 0x10000000 0 0)) = 0 /\
  set_clock_args
    (trace_of (generic_mb_interrupt_handler (sample_platform 32 0x10000000 0 0)
                 0 0 0 0 zero_memory))
  = [2200000000] /\
  ~ clock_request_as_written (sample_platform 32 0x10000000 0 0) zero_memory.
Proof.
  repeat apply conj; try reflexivity.
  - intros H. specialize (H eq_refl eq_refl). vm_compute in H. discriminate H.
  - intros H. specialize (H eq_refl eq_refl). vm_compute in H. discriminate H.
Qed.

(** C3, amended: on the secure trigger with bit 30 of the status word clear,
    the handler calls the clock-set RPC exactly once, with
    clamp(v, 600, 2200) * 1,000,000 where v is the whole 32-bit status word
    as read: the channel flags are not masked off.  So a status word of 0 is
    sent as 600,000,000; a word below 2^28 is its own low bits, and these
    are the request; and whenever bit 28 or bit 29 is set the call carries
    2,200,000,000, whatever the low bits are. *)
Theorem clock_request_is_clamped
    (p : platform) (id flags handle cookie : Z) (m : memory) :
  pending_id p = SECURE_TRIGGER ->
  Z.testbit (mbox_status p) 30 = false ->
  let t := trace_of (generic_mb_interrupt_handler p id flags handle cookie m) in
  set_clock_args t = [clamp (mbox_status p) 600 2200 * 1000000] /\
  (mbox_status p = 0 -> set_clock_args t = [600000000]) /\
  (mbox_status p < 2 ^ 28 ->
   set_clock_args t = [clamp (requested_clock (mbox_status p)) 600 2200 * 1000000]) /\
  (Z.testbit (mbox_status p) 28 = true \/ Z.testbit (mbox_status p) 29 = true ->
   set_clock_args t = [2200000000]).
Proof.
  intros Hid Hbit t.
  assert (Ht : set_clock_args t = [clamp (mbox_status p) 600 2200 * 1000000]).
  { subst t. apply secure_trigger_eqb in Hid. apply bit30_clear in Hbit.
    run_handler; unfold set_clock_args; cbn [flat_map app];
      now rewrite set_clock_value. }
  pose proof (u32_range (dev_read p (0xFF800000 + 0xc0))) as Hrange.
  fold (mbox_status p) in Hrange.
  repeat apply conj.
  - exact Ht.
  - intros Hz. rewrite Ht, Hz. reflexivity.
  - intros Hsmall. rewrite requested_clock_small by lia. exact Ht.
  - intros Hflag. rewrite Ht.
    assert (Hbig : 2 ^ 28 <= mbox_status p).
    { destruct Hflag as [Hflag|Hflag].
      - apply testbit_true_ge; [lia | lia | exact Hflag].
      - apply testbit_true_ge in Hflag; [|lia|lia].
        change (2 ^ 29) with 536870912 in Hflag. change (2 ^ 28) with 268435456. lia. }
    change (2 ^ 28) with 268435456 in Hbig. unfold clamp.
    rewrite Z.min_r by lia. rewrite Z.max_r by lia. reflexivity.
Qed.

(** A request of 0 MHz on a word without flags, and a request of 1000 MHz
    that comes with the channel-0 flag. *)
Lemma clock_request_witness :
  pending_id (sample_platform 32 0 0 0) = SECURE_TRIGGER /\
  Z.testbit (mbox_status (sample_platform 32 0 0 0)) 30 = false /\
  set_clock_args
    (trace_of (generic_mb_interrupt_handler (sample_platform 32 0 0 0) 0 0 0 0
                 zero_memory))
  = [600000000] /\
  set_clock_args
    (trace_of (generic_mb_interrupt_handler (sample_platform 32 0x100003e8 0 0)
                 0 0 0 0 zero_memory))
  = [2200000000].
Proof.
  split; [reflexivity|]. split; [reflexivity|]. split.
  - exact (proj1 (proj2 (clock_request_is_clamped (sample_platform 32 0 0 0)
                           0 0 0 0 zero_memory eq_refl eq_refl)) eq_refl).
  - exact (proj2 (proj2 (proj2 (clock_request_is_clamped
                                  (sample_platform 32 0x100003e8 0 0)
                                  0 0 0 0 zero_memory eq_refl eq_refl)))
             (or_introl eq_refl)).
Defined.

(** C5: on the secure trigger with bit 30 of the status word set, the handler
    calls the set-pwm RPC exactly once, with the low eight bits of the status
    word and nothing else done to them; the clock is not set. *)
Theorem fan_request_passes_low_byte
    (p : platform) (id flags handle cookie : Z) (m : memory) :
  pending_id p = SECURE_TRIGGER ->
  Z.testbit (mbox_status p) 30 = true ->
  let t := trace_of (generic_mb_interrupt_handler p id flags handle cookie m) in
  set_pwm_args t = [Z.land (mbox_status p) 0xFF] /\
  Z.land (mbox_status p) 0xFF = mbox_status p mod 256 /\
  set_clock_args t = [].
Proof.
  intros Hid Hbit t. subst t.
  apply secure_trigger_eqb in Hid. apply bit30_set in Hbit.
  assert (Hlow : Z.land (mbox_status p) 0xFF = mbox_status p mod 256)
    by (change 0xFF with (Z.ones 8); now rewrite Z.land_ones by lia).
  run_handler; (split; [reflexivity | split; [exact Hlow | reflexivity]]).
Qed.

(** A fan request for duty cycle 255: it is passed on as it is. *)
Lemma fan_request_witness :
  pending_id (sample_platform 32 0x400000ff 0 0) = SECURE_TRIGGER /\
  Z.testbit (mbox_status (sample_platform 32 0x400000ff 0 0)) 30 = true /\
  set_pwm_args
    (trace_of (generic_mb_interrupt_handler (sample_platform 32 0x400000ff 0 0)
                 0 0 0 0 zero_memory))
  = [255].
Proof.
  split; [reflexivity|]. split; [reflexivity|].
  exact (proj1 (fan_request_passes_low_byte (sample_platform 32 0x400000ff 0 0)
                  0 0 0 0 zero_memory eq_refl eq_refl)).
Defined.

(** C4: after every run of the handler on the secure trigger, whatever the
    status word and whatever the regions held, channel 0 (at 0x1f0000) holds
    signature 0x50434300 and channel 1 (at 0x1f0080) holds signature
    0x50434301, both with command 0 and status 1.  This covers the runs with
    bit 28 set and a channel command of 0. *)
Theorem regions_end_idle
    (p : platform) (id flags handle cookie : Z) (m : memory) :
  pending_id p = SECURE_TRIGGER ->
  let m' := state_of (generic_mb_interrupt_handler p id flags handle cookie m) in
  pcc_idle m' 0x1f0000 0x50434300 /\ pcc_idle m' 0x1f0080 0x50434301.
Proof.
  intros Hid m'. subst m'. apply secure_trigger_eqb in Hid.
  run_handler; apply reidle_both.
Qed.

(** Status word 0x30000000, both region flags set. *)
Lemma regions_end_idle_witness :
  pending_id (sample_platform 32 0x30000000 1000 1500000000) = SECURE_TRIGGER /\
  pcc_idle
    (state_of (generic_mb_interrupt_handler
                 (sample_platform 32 0x30000000 1000 1500000000) 0 0 0 0
                 (memory_with_command 1)))
    0x1f0080 0x50434301.
Proof.
  split; [reflexivity|].
  exact (proj2 (regions_end_idle (sample_platform 32 0x30000000 1000 1500000000)
                  0 0 0 0 (memory_with_command 1) eq_refl)).
Defined.

Ltac norm_addr :=
  change (0x1f0000 + 4) with 0x1f0004 in *;
  change (0x1f0000 + 6) with 0x1f0006 in *;
  change (0x1f0000 + 8 + 0) with 0x1f0008 in *;
  change (0x1f0000 + 8 + 4) with 0x1f000c in *;
  change (0x1f0080 + 4) with 0x1f0084 in *;
  change (0x1f0080 + 6) with 0x1f0086 in *;
  change (0x1f0080 + 8 + 0) with 0x1f0088 in *;
  change (0xFF800000 + 0xc0) with 0xFF8000c0 in *.

(** Peel the stores that do not reach the bytes being loaded. *)
Ltac frame_out :=
  repeat first
    [ rewrite load_bytes_store16_out by (cbn; lia)
    | rewrite load_bytes_store32_out by (cbn; lia)
    | rewrite load_bytes_store_bytes_out by (cbn; lia) ].

(** Status word 0x10000000 with the channel-0 command at 0: the handler makes
    no get-pwm call, and it makes two clock calls (get and set), so the
    sentence as written fails. *)
Lemma only_bit28_counterexample :
  pending_id (sample_platform 32 0x10000000 1000 1500000000) = SECURE_TRIGGER /\
  mbox_status (sample_platform 32 0x10000000 1000 1500000000) = 0x10000000 /\
  trace_of (generic_mb_interrupt_handler
              (sample_platform 32 0x10000000 1000 1500000000) 0 0 0 0 zero_memory)
  = [Ev_acknowledge_interrupt 32; Ev_console_flush;
     Ev_mmio_read_32 0xFF8000c0 0x10000000; Ev_mmio_write_32 0xFF8000c0 0x10000000;
     Ev_mmio_read_32 0xFE003004 1000; Ev_vc_get_clock;
     Ev_vc_set_clock 2200000000; Ev_end_of_interrupt 32] /\
  ~ only_bit28_as_written (sample_platform 32 0x10000000 1000 1500000000) zero_memory.
Proof.
  repeat apply conj; try reflexivity.
  intros H. specialize (H eq_refl eq_refl).
  destruct H as [Hpwm _]. vm_compute in Hpwm. discriminate Hpwm.
Qed.

(** C1, amended: on the secure trigger with the status word exactly
    0x10000000, the handler makes no get-pwm call; it serves the region at
    0x1f0000 (one get-clock call when its command is 0, none otherwise), then
    calls the clock-set RPC exactly once, with 2,200,000,000 (the status word
    clamped to 2200, times 1,000,000); it makes no set-pwm and no power call,
    leaves both regions with their idle triple, and acknowledges and ends the
    interrupt exactly once each. *)
Theorem only_bit28_services_channel0
    (p : platform) (id flags handle cookie : Z) (m : memory) :
  pending_id p = SECURE_TRIGGER ->
  mbox_status p = 0x10000000 ->
  let r := generic_mb_interrupt_handler p id flags handle cookie m in
  let t := trace_of r in
  count is_vc_get_pwm t = 0%nat /\
  count is_vc_get_clock t = (if load16 m 0x1f0004 =? 0 then 1%nat else 0%nat) /\
  set_clock_args t = [2200000000] /\
  count is_vc_set_clock t = 1%nat /\
  count is_vc_set_pwm t = 0%nat /\
  count is_vc_set_power t = 0%nat /\
  pcc_idle (state_of r) 0x1f0000 0x50434300 /\
  pcc_idle (state_of r) 0x1f0080 0x50434301 /\
  count is_acknowledge t = 1%nat /\
  count is_end_of_interrupt t = 1%nat.
Proof.
  intros Hid Hst r t. subst t r.
  apply secure_trigger_eqb in Hid. unfold mbox_status in Hst.
  run_step. rewrite Hid. run_step. rewrite !Hst.
  change (c_true (Z.land 0x10000000 0x10000000)) with true.
  change (c_true (Z.land 0x10000000 0x20000000)) with false.
  change (c_true (Z.land 0x10000000 0x40000000)) with false.
  run_step. norm_addr.
  destruct (load16 m 0x1f0004 =? 0); run_step;
    (repeat apply conj; try reflexivity; apply reidle_both).
Qed.

(** The same status word with a write command pending in channel 0. *)
Lemma only_bit28_witness :
  pending_id (sample_platform 32 0x10000000 1000 1500000000) = SECURE_TRIGGER /\
  mbox_status (sample_platform 32 0x10000000 1000 1500000000) = 0x10000000 /\
  set_clock_args
    (trace_of (generic_mb_interrupt_handler
                 (sample_platform 32 0x10000000 1000 1500000000) 0 0 0 0
                 (memory_with_command 1)))
  = [2200000000].
Proof.
  split; [reflexivity|]. split; [reflexivity|].
  exact (proj1 (proj2 (proj2
    (only_bit28_services_channel0 (sample_platform 32 0x10000000 1000 1500000000)
       0 0 0 0 (memory_with_command 1) eq_refl eq_refl)))).
Defined.

(** A handler run with only bit 27 set (0x08000000) and command 0 in
    channel 0: the performance counter 0x12345678 is not written to the
    payload, which stays zero. *)
Lemma bit27_counterexample :
  pending_id (sample_platform 32 0x08000000 0x12345678 1500000000) = SECURE_TRIGGER /\
  Z.testbit (mbox_status (sample_platform 32 0x08000000 0x12345678 1500000000)) 27
  = true /\
  load16 zero_memory 0x1f0004 = 0 /\
  trace_of (generic_mb_interrupt_handler
              (sample_platform 32 0x08000000 0x12345678 1500000000) 0 0 0 0
              zero_memory)
  = [Ev_acknowledge_interrupt 32; Ev_console_flush;
     Ev_mmio_read_32 0xFF8000c0 0x08000000; Ev_mmio_write_32 0xFF8000c0 0x08000000;
     Ev_vc_set_clock 2200000000; Ev_end_of_interrupt 32] /\
  load_bytes
    (state_of (generic_mb_interrupt_handler
                 (sample_platform 32 0x08000000 0x12345678 1500000000) 0 0 0 0
                 zero_memory))
    0x1f0008 8
  = [0; 0; 0; 0; 0; 0; 0; 0] /\
  ~ bit27_as_written (sample_platform 32 0x08000000 0x12345678 1500000000) zero_memory.
Proof.
  repeat apply conj; try reflexivity.
  intros H. specialize (H eq_refl eq_refl eq_refl).
  destruct H as (_ & _ & Hpayload & _).
  vm_compute in Hpayload. discriminate Hpayload.
Qed.

(** C2, amended: on the secure trigger with bit 28 of the status word set
    (the code tests 0x10000000), when the command of the region at 0x1f0000
    is 0 the handler reads the performance counter at 0xFE003004, makes one
    get-clock call, writes the counter little-endian into payload bytes
    0..3 and, computed in 32-bit unsigned arithmetic (the product wraps
    modulo 2^32 before the division), (counter * (clockRate / 100,000,000))
    / 15 little-endian into payload bytes 4..7.  When the command is not 0
    it reads no counter and makes no get-clock call, logs the error line
    with the command, the status and the eight payload bytes, and leaves the
    payload as it was. *)
Theorem channel0_request_on_bit28
    (p : platform) (id flags handle cookie : Z) (m : memory) :
  pending_id p = SECURE_TRIGGER ->
  Z.testbit (mbox_status p) 28 = true ->
  let r := generic_mb_interrupt_handler p id flags handle cookie m in
  let t := trace_of r in
  (load16 m 0x1f0004 = 0 ->
   mmio_reads t = [(0xFF8000c0, mbox_status p); (0xFE003004, perf_counter p)] /\
   count is_vc_get_clock t = 1%nat /\
   load_bytes (state_of r) 0x1f0008 4 = le32enc_bytes (perf_counter p) /\
   load_bytes (state_of r) 0x1f000c 4
   = le32enc_bytes (u32 (perf_counter p * (fetched_clock p / 100000000)) / 15)) /\
  (load16 m 0x1f0004 <> 0 ->
   mmio_reads t = [(0xFF8000c0, mbox_status p)] /\
   count is_vc_get_clock t = 0%nat /\
   In ("interrupt: PCC handshake cmd=%x stat=%x (%x:%x:%x:%x:%x:%x:%x:%x)"%string,
       load16 m 0x1f0004 :: load16 m 0x1f0006 :: load_bytes m 0x1f0008 8)
      (errors t) /\
   load_bytes (state_of r) 0x1f0008 8 = load_bytes m 0x1f0008 8).
Proof.
  intros Hid Hbit r t. subst t r.
  apply secure_trigger_eqb in Hid.
  rewrite <- c_true_bit28 in Hbit. unfold mbox_status in Hbit.
  unfold perf_counter, fetched_clock, mbox_status.
  split; intros Hcmd.
  - apply Z.eqb_eq in Hcmd. change 0x1f0004 with (0x1f0000 + 4) in Hcmd.
    run_handler; norm_addr;
      (repeat apply conj; try reflexivity);
      frame_out; try apply load_bytes_le32enc.
    all: rewrite load_bytes_le32enc; reflexivity.
  - apply Z.eqb_neq in Hcmd. change 0x1f0004 with (0x1f0000 + 4) in Hcmd.
    run_handler; norm_addr;
      (repeat apply conj; try reflexivity; try (left; reflexivity));
      frame_out; reflexivity.
Qed.

(** The counter at its largest with a clock of 1.5 GHz: the product wraps,
    and the second payload word is 0x11111110. *)
Lemma channel0_request_witness :
  pending_id (sample_platform 32 0x10000000 0xffffffff 1500000000) = SECURE_TRIGGER /\
  Z.testbit (mbox_status (sample_platform 32 0x10000000 0xffffffff 1500000000)) 28
  = true /\
  load16 zero_memory 0x1f0004 = 0 /\
  load_bytes
    (state_of (generic_mb_interrupt_handler
                 (sample_platform 32 0x10000000 0xffffffff 1500000000) 0 0 0 0
                 zero_memory))
    0x1f000c 4
  = le32enc_bytes 0x11111110.
Proof.
  split; [reflexivity|]. split; [reflexivity|]. split; [reflexivity|].
  exact (proj2 (proj2 (proj2 (proj1
    (channel0_request_on_bit28 (sample_platform 32 0x10000000 0xffffffff 1500000000)
       0 0 0 0 zero_memory eq_refl eq_refl) eq_refl)))).
Defined.

(** ** Address-space setup *)

Lemma align_2MB (d : Z) :
  0 <= d < 2 ^ 64 ->
  Z.land d (u64 (Z.lnot 0x1fffff)) = 2 ^ 21 * (d / 2 ^ 21).
Proof.
  intros Hd. unfold u64.
  rewrite <- (Z.land_ones (Z.lnot 0x1fffff) 64) by lia.
  rewrite (Z.land_comm (Z.lnot _)), Z.land_assoc.
  rewrite (Z.land_ones d 64) by lia.
  rewrite (Z.mod_small d) by assumption.
  rewrite <- Z.ldiff_land.
  change 0x1fffff with (Z.ones 21).
  rewrite Z.ldiff_ones_r by lia.
  rewrite Z.shiftl_mul_pow2, Z.shiftr_div_pow2 by lia.
  apply Z.mul_comm.
Qed.

Lemma dtb_ptr32_range stub : 0 <= dtb_ptr32 stub < 2 ^ 64.
Proof.
  unfold dtb_ptr32. pose proof (u32_range (dtb_ptr32_word stub)).
  change (2 ^ 32) with 4294967296 in *. change (2 ^ 64) with 18446744073709551616. lia.
Qed.

(** C8: the architecture setup registers, in this order, (only when the stub
    marker word is zero) a 4 MiB region based at the device-tree pointer
    rounded down to a 2 MiB boundary, as normal memory, read-write and
    non-secure; then, in every case, the region [0, 4096) as non-cacheable,
    read-write and secure; then the image regions; and only then enables the
    translation unit.  With a nonzero marker the first region is absent. *)
Theorem arch_setup_regions (cfg : build_config) (stub : armstub8) :
  let t := trace_of (bl31_plat_arch_setup cfg stub tt) in
  let base := 2 ^ 21 * (dtb_ptr32 stub / 2 ^ 21) in
  let dtb_window :=
    Ev_mmap_add_region base base (4 * 2 ^ 20) [MT_MEMORY; MT_RW; MT_NS] in
  let page0 := Ev_mmap_add_region 0 0 4096 [MT_NON_CACHEABLE; MT_RW; MT_SECURE] in
  exists regions,
    (stub_magic stub = 0 ->
     t = [dtb_window; page0; Ev_rpi3_setup_page_tables regions; Ev_enable_mmu_el3 0]) /\
    (stub_magic stub <> 0 ->
     t = [page0; Ev_rpi3_setup_page_tables regions; Ev_enable_mmu_el3 0]).
Proof.
  intros t base dtb_window page0. subst t base dtb_window page0.
  eexists. unfold bl31_plat_arch_setup.
  split; intros Hmagic.
  - rewrite Hmagic, align_2MB by apply dtb_ptr32_range. reflexivity.
  - apply Z.eqb_neq in Hmagic. rewrite Hmagic. reflexivity.
Qed.

(** A device tree at 0x2eff2d00: the window starts at 0x2ee00000. *)
Lemma arch_setup_witness :
  stub_magic (sample_stub 0 0x2eff2d00 0x80000) = 0 /\
  trace_of (bl31_plat_arch_setup sample_config (sample_stub 0 0x2eff2d00 0x80000) tt)
  = [Ev_mmap_add_region 0x2ee00000 0x2ee00000 0x400000 [MT_MEMORY; MT_RW; MT_NS];
     Ev_mmap_add_region 0 0 4096 [MT_NON_CACHEABLE; MT_RW; MT_SECURE];
     Ev_rpi3_setup_page_tables
       [0; 0x80000; 0; 0x10000; 0x10000; 0x20000; 0x20000; 0x21000];
     Ev_enable_mmu_el3 0].
Proof.
  split; [reflexivity|].
  destruct (arch_setup_regions sample_config (sample_stub 0 0x2eff2d00 0x80000))
    as [regions [Hzero _]].
  specialize (Hzero eq_refl).
  assert (Hregions :
            regions = [0; 0x80000; 0; 0x10000; 0x10000; 0x20000; 0x20000; 0x21000]).
  { injection Hzero as Hregions. symmetry. exact Hregions. }
  rewrite Hregions in Hzero. exact Hzero.
Defined.

(** ** Entry-point descriptors *)

Ltac run_early :=
  cbv beta iota zeta delta
    [bl31_early_platform_setup2 plat_get_ns_image_entrypoint rpi4_get_dtb_address
     bind ret emit rd wr mmio_write_32 ldelay WARN VERBOSE
     trace_of state_of result_of fst snd app].

Lemma early_setup_keeps_bl32 cfg stub a0 a1 a2 a3 g :
  bl32_image_ep_info (state_of (bl31_early_platform_setup2 cfg stub a0 a1 a2 a3 g))
  = bl32_image_ep_info g.
Proof.
  run_early.
  destruct (PRELOADED_BL33_BASE cfg), (RPI3_PRELOADED_DTB_BASE cfg),
    (stub_magic stub =? 0), (RPI3_DIRECT_LINUX_BOOT cfg), (RPI3_BL33_IN_AARCH32 cfg);
    reflexivity.
Qed.

Lemma early_setup_sets_pc cfg stub a0 a1 a2 a3 g :
  pc (bl33_image_ep_info (state_of (bl31_early_platform_setup2 cfg stub a0 a1 a2 a3 g)))
  = result_of (plat_get_ns_image_entrypoint cfg stub g).
Proof.
  run_early.
  destruct (PRELOADED_BL33_BASE cfg), (RPI3_PRELOADED_DTB_BASE cfg),
    (stub_magic stub =? 0), (RPI3_DIRECT_LINUX_BOOT cfg), (RPI3_BL33_IN_AARCH32 cfg);
    reflexivity.
Qed.

Lemma reachable_bl32_zero cfg g : reachable cfg g -> bl32_image_ep_info g = zero_ep.
Proof.
  induction 1 as [|g stub a0 a1 a2 a3 _ IH]; [reflexivity|].
  now rewrite early_setup_keeps_bl32.
Qed.

Lemma next_image_of_valid_type cfg g type :
  sec_state_is_valid cfg type = true ->
  bl31_plat_get_next_image_ep_info cfg g type
  = Returned
      (let selected := if type =? NON_SECURE cfg then addr_bl33_image_ep_info
                       else addr_bl32_image_ep_info in
       if pc (deref g selected) =? 0 then None else Some selected).
Proof.
  intros Hvalid. unfold bl31_plat_get_next_image_ep_info, c_true.
  rewrite Hvalid. cbn [negb].
  destruct (pc (deref g _) =? 0); reflexivity.
Qed.

(** C10: for a valid security state the query returns NULL exactly when the
    program counter of the descriptor it selects (BL33 for the non-secure
    state, BL32 otherwise) is 0, and a pointer to that descriptor otherwise.
    The BL32 descriptor is never written by this file, so in every state the
    file can reach the secure query returns NULL; after the early setup the
    BL33 descriptor holds the non-secure entry point, and the non-secure
    query returns a pointer to it (the entry point being nonzero). *)
Theorem next_image_ep_info_null_iff_pc_zero (cfg : build_config) :
  SECURE cfg <> NON_SECURE cfg ->
  (forall g type,
     sec_state_is_valid cfg type = true ->
     let selected := if type =? NON_SECURE cfg then addr_bl33_image_ep_info
                     else addr_bl32_image_ep_info in
     bl31_plat_get_next_image_ep_info cfg g type
     = Returned (if pc (deref g selected) =? 0 then None else Some selected)) /\
  (forall g,
     reachable cfg g ->
     bl31_plat_get_next_image_ep_info cfg g (SECURE cfg) = Returned None) /\
  (forall g stub a0 a1 a2 a3,
     let g' := state_of (bl31_early_platform_setup2 cfg stub a0 a1 a2 a3 g) in
     let entry := result_of (plat_get_ns_image_entrypoint cfg stub g) in
     pc (bl33_image_ep_info g') = entry /\
     (entry <> 0 ->
      bl31_plat_get_next_image_ep_info cfg g' (NON_SECURE cfg)
      = Returned (Some addr_bl33_image_ep_info))).
Proof.
  intros Hdistinct. repeat apply conj.
  - intros g type Hvalid. now apply next_image_of_valid_type.
  - intros g Hreach.
    rewrite next_image_of_valid_type
      by (unfold sec_state_is_valid; now rewrite Z.eqb_refl).
    cbv zeta. apply Z.eqb_neq in Hdistinct. rewrite Hdistinct.
    cbn [deref]. now rewrite (reachable_bl32_zero cfg g Hreach).
  - intros g stub a0 a1 a2 a3 g' entry. subst g' entry.
    split; [apply early_setup_sets_pc|]. intros Hentry.
    rewrite next_image_of_valid_type
      by (unfold sec_state_is_valid; rewrite (Z.eqb_refl (NON_SECURE cfg));
          apply orb_true_r).
    cbv zeta. rewrite Z.eqb_refl. cbn [deref].
    rewrite early_setup_sets_pc. apply Z.eqb_neq in Hentry. now rewrite Hentry.
Qed.

(** With the usual values of the two security states: NULL for the secure
    image from the start, and the BL33 descriptor with the fallback entry
    point 0x80000 after an early setup that found the stub marker intact. *)
Lemma next_image_ep_info_witness :
  SECURE sample_config <> NON_SECURE sample_config /\
  bl31_plat_get_next_image_ep_info sample_config static_init (SECURE sample_config)
  = Returned None /\
  bl31_plat_get_next_image_ep_info sample_config
    (state_of (bl31_early_platform_setup2 sample_config
                 (sample_stub 0x5afe570b 0 0) 0 0 0 0 static_init))
    (NON_SECURE sample_config)
  = Returned (Some addr_bl33_image_ep_info).
Proof.
  assert (Hdistinct : SECURE sample_config <> NON_SECURE sample_config)
    by discriminate.
  destruct (next_image_ep_info_null_iff_pc_zero sample_config Hdistinct)
    as (_ & Hsecure & Hnon_secure).
  split; [exact Hdistinct|]. split.
  - apply Hsecure. constructor.
  - apply (Hnon_secure static_init (sample_stub 0x5afe570b 0 0) 0 0 0 0).
    discriminate.
Defined.
(** ** Device-tree patcher *)


Lemma gic_int_prop_literal :
  fdt32_bytes [1; 9; 0x0f04] = [0; 0; 0; 1; 0; 0; 0; 9; 0; 0; 0x0f; 0x04].
Proof. reflexivity. Qed.

Lemma c_true_false (r : Z) : c_true r = false -> r = 0.
Proof. unfold c_true. destruct (Z.eqb_spec r 0); [trivial | discriminate]. Qed.

Lemma c_true_true (r : Z) : c_true r = true -> r <> 0.
Proof. unfold c_true. destruct (Z.eqb_spec r 0); [discriminate | trivial]. Qed.

Ltac dtb_step :=
  cbv beta iota zeta delta
    [rpi4_prepare_dtb rpi4_get_dtb_address bind ret emit rd wr query update
     ERROR WARN INFO trace_of state_of result_of fst snd].

Ltac dtb_branch :=
  match goal with
  | [ |- context [match RPI3_PRELOADED_DTB_BASE ?c with _ => _ end] ] =>
      destruct (RPI3_PRELOADED_DTB_BASE c)
  | [ |- context [if stub_magic ?s =? 0 then _ else _] ] =>
      destruct (stub_magic s =? 0)
  | [ H : ?f = (_, _) |- context [match ?f with pair _ _ => _ end] ] => rewrite H
  | [ |- context [match ?f with pair _ _ => _ end] ] =>
      lazymatch type of f with
      | (Z * list event)%type => fail
      | (Z * _)%type => destruct f as [? ?] eqn:?
      end
  | [ |- context [if c_true ?r then _ else _] ] =>
      let E := fresh "E" in
      destruct (c_true r) eqn:E;
      [apply c_true_true in E | apply c_true_false in E]
  | [ |- context [if ?r <? 0 then _ else _] ] =>
      destruct (Z.ltb_spec r 0)
  end.

(** Run the patcher once, whatever the number of places the goal names its
    outcome in. *)
Ltac run_patcher :=
  cbv zeta;
  match goal with
  | [ |- context [rpi4_prepare_dtb ?c ?s ?w] ] =>
      let res := fresh "res" in
      let E := fresh "E" in
      remember (rpi4_prepare_dtb c s w) as res eqn:E; symmetry in E; revert E
  end;
  dtb_step; repeat (dtb_branch; dtb_step);
  intros <-; dtb_step.

Ltac dtb_in := cbn [app In]; repeat first [left; reflexivity | right].

(** C6: the device-tree patcher stops at the first of these steps that fails
    and runs no later step, the blob being left as that step left it: the
    header check (a nonzero result), the open-for-edit (a negative result),
    the PSCI-node insertion and the PSCI cpu-enable-methods installation (a
    nonzero result).  When the four succeed, the reserved-memory insertion
    is followed by the interrupts property, the stdout path, the pack and
    the cache flush whatever it returned; its failure only adds a warning to
    the log. *)
Theorem prepare_dtb_failure_policy
    {T : Type} {L : FdtLib T} (cfg : build_config) (stub : armstub8) (w : T) :
  let dtb := result_of (rpi4_get_dtb_address cfg stub w) in
  let r := rpi4_prepare_dtb cfg stub w in
  let opened := fdt_open_into w dtb dtb 0x100000 in
  let psci := dt_add_psci_node (snd opened) dtb in
  let methods := dt_add_psci_cpu_enable_methods (snd psci) dtb in
  let reserved := fdt_add_reserved_memory (snd methods) dtb "atf@0" 0 0x80000 in
  (fdt_check_header w dtb <> 0 ->
   steps_executed (trace_of r) = [Step_check_header] /\ state_of r = w) /\
  (fdt_check_header w dtb = 0 -> fst opened < 0 ->
   steps_executed (trace_of r) = [Step_check_header; Step_open_into] /\
   state_of r = snd opened) /\
  (fdt_check_header w dtb = 0 -> 0 <= fst opened -> fst psci <> 0 ->
   steps_executed (trace_of r)
   = [Step_check_header; Step_open_into; Step_add_psci_node] /\
   state_of r = snd psci) /\
  (fdt_check_header w dtb = 0 -> 0 <= fst opened -> fst psci = 0 ->
   fst methods <> 0 ->
   steps_executed (trace_of r)
   = [Step_check_header; Step_open_into; Step_add_psci_node;
      Step_add_psci_cpu_enable_methods] /\
   state_of r = snd methods) /\
  (fdt_check_header w dtb = 0 -> 0 <= fst opened -> fst psci = 0 ->
   fst methods = 0 ->
   steps_executed (trace_of r)
   = [Step_check_header; Step_open_into; Step_add_psci_node;
      Step_add_psci_cpu_enable_methods; Step_add_reserved_memory;
      Step_set_interrupts; Step_set_stdout_path; Step_pack; Step_flush] /\
   (fst reserved <> 0 ->
    In (Ev_WARN "Failed to add reserved memory nodes to DT." []) (trace_of r))).
Proof.
  run_patcher; repeat first [apply conj | intro];
    first [reflexivity | contradiction | exfalso; lia | dtb_in].
Qed.

(** A failing PSCI-node insertion ends the patch after three steps; a failing
    reserved-memory insertion does not keep the other eight from running. *)
Lemma prepare_dtb_failure_witness :
  steps_executed
    (trace_of (@rpi4_prepare_dtb prop_store
                 (scripted_fdt (fails_at Step_add_psci_node (-1)))
                 sample_config (sample_stub 0 0x2eff2d00 0x80000) []))
  = [Step_check_header; Step_open_into; Step_add_psci_node] /\
  steps_executed
    (trace_of (@rpi4_prepare_dtb prop_store
                 (scripted_fdt (fails_at Step_add_reserved_memory (-3)))
                 sample_config (sample_stub 0 0x2eff2d00 0x80000) []))
  = [Step_check_header; Step_open_into; Step_add_psci_node;
     Step_add_psci_cpu_enable_methods; Step_add_reserved_memory;
     Step_set_interrupts; Step_set_stdout_path; Step_pack; Step_flush].
Proof.
  split.
  - refine (proj1 (proj1 (proj2 (proj2
      (@prepare_dtb_failure_policy prop_store
         (scripted_fdt (fails_at Step_add_psci_node (-1)))
         sample_config (sample_stub 0 0x2eff2d00 0x80000) []))) _ _ _)).
    + reflexivity.
    + cbn. lia.
    + discriminate.
  - refine (proj1 (proj2 (proj2 (proj2 (proj2
      (@prepare_dtb_failure_policy prop_store
         (scripted_fdt (fails_at Step_add_reserved_memory (-3)))
         sample_config (sample_stub 0 0x2eff2d00 0x80000) [])))) _ _ _ _)).
    + reflexivity.
    + cbn. lia.
    + reflexivity.
    + reflexivity.
Defined.








(** * More properties of the mailbox handler *)

Lemma bit28_test p :
  c_true (Z.land (u32 (dev_read p (0xFF800000 + 0xc0))) 0x10000000)
  = Z.testbit (mbox_status p) 28.
Proof. apply c_true_bit28. Qed.

Lemma bit29_test p :
  c_true (Z.land (u32 (dev_read p (0xFF800000 + 0xc0))) 0x20000000)
  = Z.testbit (mbox_status p) 29.
Proof. apply c_true_bit29. Qed.

Lemma bit30_test p :
  c_true (Z.land (u32 (dev_read p (0xFF800000 + 0xc0))) 0x40000000)
  = Z.testbit (mbox_status p) 30.
Proof. apply c_true_bit30. Qed.

(** Decide where an address lies among the bytes a run stores to. *)
Ltac frame_bytes :=
  unfold store32, store16; cbn [store_bytes le32enc_bytes];
  unfold store8;
  repeat match goal with
         | [ |- context [?x =? ?y] ] =>
             destruct (Z.eqb_spec x y); [exfalso; lia|]
         end;
  reflexivity.

(** X1: a run of the handler stores nowhere but in the 16 bytes of channel 0
    (0x1f0000..0x1f000f) and the 8 header bytes of channel 1
    (0x1f0080..0x1f0087): every other byte of memory, the payload of
    channel 1 included, is left as it was.  The payload of channel 0 is
    written only by a read request (secure trigger, bit 28 set, command 0). *)
Theorem handler_stores_only_to_mailbox
    (p : platform) (id flags handle cookie : Z) (m : memory) (a : Z) :
  let m' := state_of (generic_mb_interrupt_handler p id flags handle cookie m) in
  (~ in_channel0 a -> ~ in_channel1_header a -> m' a = m a) /\
  (0x1f0008 <= a < 0x1f0010 ->
   pending_id p <> SECURE_TRIGGER \/ Z.testbit (mbox_status p) 28 = false \/
   load16 m 0x1f0004 <> 0 ->
   m' a = m a).
Proof.
  intros m'. subst m'. unfold in_channel0, in_channel1_header, pending_id.
  rewrite <- bit28_test. change 0x1f0004 with (0x1f0000 + 4).
  run_handler; (split; [intros Hout0 Hout1 | intros Hin Hskip]);
    try frame_bytes.
  all: exfalso; destruct Hskip as [Hskip | [Hskip | Hskip]];
    first [ apply Hskip; now apply Z.eqb_eq
          | discriminate Hskip
          | apply Hskip; now apply Z.eqb_eq ].
Qed.

(** X2: on the secure trigger the handler reads the mailbox status register
    and writes the value it read back to the same register straight after
    the acknowledge and the console flush, before any co-processor call;
    this is the only device register it ever writes. *)
Theorem handler_clears_status_before_anything_else
    (p : platform) (id flags handle cookie : Z) (m : memory) :
  pending_id p = SECURE_TRIGGER ->
  let t := trace_of (generic_mb_interrupt_handler p id flags handle cookie m) in
  firstn 4 t
  = [Ev_acknowledge_interrupt (u32 (gic_acknowledge p)); Ev_console_flush;
     Ev_mmio_read_32 0xFF8000c0 (mbox_status p);
     Ev_mmio_write_32 0xFF8000c0 (mbox_status p)] /\
  mmio_writes t = [(0xFF8000c0, mbox_status p)].
Proof.
  intros Hid t. subst t. apply secure_trigger_eqb in Hid. unfold mbox_status.
  run_handler; split; reflexivity.
Qed.

(** The write-back of a status word with two flags set. *)
Lemma handler_clears_status_witness :
  pending_id (sample_platform 32 0x30000000 1000 1500000000) = SECURE_TRIGGER /\
  mmio_writes
    (trace_of (generic_mb_interrupt_handler
                 (sample_platform 32 0x30000000 1000 1500000000) 0 0 0 0 zero_memory))
  = [(0xFF8000c0, 0x30000000)].
Proof.
  split; [reflexivity|].
  exact (proj2 (handler_clears_status_before_anything_else
                  (sample_platform 32 0x30000000 1000 1500000000) 0 0 0 0
                  zero_memory eq_refl)).
Defined.

(** X3: on the secure trigger the co-processor calls of one run are counted
    by the status word alone: get-clock once exactly when bit 28 is set and
    the channel-0 command is 0, get-pwm once exactly when bit 29 is set,
    set-pwm once exactly when bit 30 is set and clock-set once exactly when
    it is clear (so always one of the two, never both), and never a power
    call. *)
Theorem handler_rpc_census
    (p : platform) (id flags handle cookie : Z) (m : memory) :
  pending_id p = SECURE_TRIGGER ->
  let t := trace_of (generic_mb_interrupt_handler p id flags handle cookie m) in
  let status := mbox_status p in
  count is_vc_get_clock t
  = b2n (Z.testbit status 28 && (load16 m 0x1f0004 =? 0)) /\
  count is_vc_get_pwm t = b2n (Z.testbit status 29) /\
  count is_vc_set_pwm t = b2n (Z.testbit status 30) /\
  count is_vc_set_clock t = b2n (negb (Z.testbit status 30)) /\
  count is_vc_set_power t = 0%nat.
Proof.
  intros Hid t status. subst t status. apply secure_trigger_eqb in Hid.
  rewrite <- bit28_test, <- bit29_test, <- bit30_test.
  change 0x1f0004 with (0x1f0000 + 4).
  run_handler; repeat split; reflexivity.
Qed.

(** Status word 0x60000000: one get-pwm, one set-pwm, no clock-set. *)
Lemma handler_rpc_census_witness :
  pending_id (sample_platform 32 0x60000000 1000 1500000000) = SECURE_TRIGGER /\
  count is_vc_get_pwm
    (trace_of (generic_mb_interrupt_handler
                 (sample_platform 32 0x60000000 1000 1500000000) 0 0 0 0 zero_memory))
  = 1%nat /\
  count is_vc_set_clock
    (trace_of (generic_mb_interrupt_handler
                 (sample_platform 32 0x60000000 1000 1500000000) 0 0 0 0 zero_memory))
  = 0%nat.
Proof.
  split; [reflexivity|].
  destruct (handler_rpc_census (sample_platform 32 0x60000000 1000 1500000000)
              0 0 0 0 zero_memory eq_refl) as (_ & Hpwm & _ & Hclock & _).
  split; [exact Hpwm | exact Hclock].
Defined.

(** X4: on the secure trigger with bit 29 set the handler logs the handshake
    error line for channel 1 whatever its command is, a read (0) included,
    with the command, status and payload the region held when the interrupt
    came; the payload of channel 1 is not changed. *)
Theorem handler_logs_every_channel1_request
    (p : platform) (id flags handle cookie : Z) (m : memory) :
  pending_id p = SECURE_TRIGGER ->
  Z.testbit (mbox_status p) 29 = true ->
  let r := generic_mb_interrupt_handler p id flags handle cookie m in
  In ("interrupt: PCC handshake cmd=%x stat=%x (%x:%x:%x:%x:%x:%x:%x:%x)"%string,
      load16 m 0x1f0084 :: load16 m 0x1f0086 :: load_bytes m 0x1f0088 8)
     (errors (trace_of r)) /\
  load_bytes (state_of r) 0x1f0088 8 = load_bytes m 0x1f0088 8.
Proof.
  intros Hid Hbit r. subst r. apply secure_trigger_eqb in Hid.
  rewrite <- bit29_test in Hbit.
  assert (Hframe16 : forall m0 b v a,
             b + 1 < a \/ a + 2 <= b -> load16 (store8 m0 b v) a = load16 m0 a).
  { intros m0 b v a Hout. unfold load16.
    now rewrite !load8_store8_other by lia. }
  run_handler; norm_addr; split;
    try (frame_out; reflexivity).
  all: unfold errors; cbn [flat_map app In].
  all: unfold store32, store16; cbn [store_bytes le32enc_bytes].
  all: rewrite ?Hframe16 by lia; frame_out.
  all: repeat first [left; reflexivity | right].
Qed.

(** A channel-1 request on zeroed memory is logged with ten zeros. *)
Lemma handler_logs_channel1_witness :
  pending_id (sample_platform 32 0x20000000 0 0) = SECURE_TRIGGER /\
  Z.testbit (mbox_status (sample_platform 32 0x20000000 0 0)) 29 = true /\
  In ("interrupt: PCC handshake cmd=%x stat=%x (%x:%x:%x:%x:%x:%x:%x:%x)"%string,
      [0; 0; 0; 0; 0; 0; 0; 0; 0; 0])
     (errors (trace_of (generic_mb_interrupt_handler
                          (sample_platform 32 0x20000000 0 0) 0 0 0 0 zero_memory))).
Proof.
  split; [reflexivity|]. split; [reflexivity|].
  exact (proj1 (handler_logs_every_channel1_request
                  (sample_platform 32 0x20000000 0 0) 0 0 0 0 zero_memory
                  eq_refl eq_refl)).
Defined.

(** ** Little-endian words *)

Ltac bits_step :=
  match goal with
  | [ |- context [Z.testbit (Z.lor ?a ?b) ?i] ] => rewrite (Z.lor_spec a b i)
  | [ |- context [Z.testbit (Z.land ?a ?b) ?i] ] => rewrite (Z.land_spec a b i)
  | [ |- context [Z.testbit (Z.ones ?k) ?i] ] => rewrite (Z.testbit_ones k i) by lia
  | [ |- context [Z.testbit (Z.shiftl ?a ?k) ?i] ] =>
      first [ rewrite (Z.shiftl_spec a k i) by lia
            | rewrite (Z.testbit_neg_r (Z.shiftl a k) i) by lia ]
  | [ |- context [Z.testbit (Z.shiftr ?a ?k) ?i] ] =>
      first [ rewrite (Z.shiftr_spec a k i) by lia
            | rewrite (Z.testbit_neg_r (Z.shiftr a k) i) by lia ]
  | [ |- context [?a <? ?b] ] => destruct (Z.ltb_spec a b); try lia
  | [ |- context [?a <=? ?b] ] => destruct (Z.leb_spec a b); try lia
  end.

(** Four bytes, lowest first, spell the 32-bit word they were cut from. *)
Lemma le32_combine (u : Z) :
  Z.lor (Z.lor (Z.land u 0xff) (Z.shiftl (Z.land (Z.shiftr u 8) 0xff) 8))
    (Z.shiftl (Z.lor (Z.land (Z.shiftr u 16) 0xff)
                 (Z.shiftl (Z.land (Z.shiftr u 24) 0xff) 8)) 16)
  = u32 u.
Proof.
  unfold u32. apply Z.bits_inj'. intros n Hn.
  rewrite Z.testbit_mod_pow2 by lia.
  change 0xff with (Z.ones 8).
  assert (Hcase : n < 8 \/ 8 <= n < 16 \/ 16 <= n < 24 \/ 24 <= n < 32 \/ 32 <= n)
    by lia.
  destruct Hcase as [H|[H|[H|[H|H]]]]; repeat bits_step;
    cbn [andb orb];
    rewrite ?andb_false_r, ?orb_false_r, ?andb_true_r, ?orb_false_l;
    try reflexivity; f_equal; lia.
Qed.

Lemma load32_le32enc (m : memory) (a u : Z) :
  load32 (store_bytes m a (le32enc_bytes u)) a = u32 u.
Proof.
  unfold load32, load16, le32enc_bytes. cbn [store_bytes].
  replace (a + 2) with (a + 1 + 1) by lia.
  repeat (rewrite ?load8_store8_same, ?u8_land_ff;
          try rewrite load8_store8_other by lia).
  apply le32_combine.
Qed.

(** A 32-bit load sees only its four bytes. *)
Lemma load32_bytes (m m' : memory) (a : Z) :
  load_bytes m' a 4 = load_bytes m a 4 -> load32 m' a = load32 m a.
Proof.
  cbn [load_bytes]. intros Hbytes. injection Hbytes as H0 H1 H2 H3.
  unfold load32, load16.
  replace (a + 2 + 1) with (a + 1 + 1 + 1) by lia.
  replace (a + 2) with (a + 1 + 1) by lia.
  now rewrite H0, H1, H2, H3.
Qed.

(** X5: after a served read request (secure trigger, bit 28 set, command 0)
    a little-endian 32-bit load of payload bytes 0..3 gives back the
    performance counter, and one of bytes 4..7 gives the scaled counter.
    The scaled counter never exceeds 0x11111111, and it is the exact
    quotient (counter * (clockRate / 100,000,000)) / 15 whenever the product
    fits in 32 bits. *)
Theorem handler_payload_reads_back
    (p : platform) (id flags handle cookie : Z) (m : memory) :
  pending_id p = SECURE_TRIGGER ->
  Z.testbit (mbox_status p) 28 = true ->
  load16 m 0x1f0004 = 0 ->
  let m' := state_of (generic_mb_interrupt_handler p id flags handle cookie m) in
  let delivered := u32 (perf_counter p * (fetched_clock p / 100000000)) / 15 in
  load32 m' 0x1f0008 = perf_counter p /\
  load32 m' 0x1f000c = delivered /\
  0 <= delivered <= 0x11111111 /\
  (perf_counter p * (fetched_clock p / 100000000) < 2 ^ 32 ->
   delivered = perf_counter p * (fetched_clock p / 100000000) / 15).
Proof.
  intros Hid Hbit Hcmd m' delivered.
  assert (Hk : 0 <= fetched_clock p / 100000000).
  { apply Z.div_pos; [apply u32_range | lia]. }
  assert (Hc : 0 <= perf_counter p) by apply u32_range.
  assert (Hd : 0 <= delivered <= 0x11111111).
  { subst delivered.
    pose proof (u32_range (perf_counter p * (fetched_clock p / 100000000))) as Hr.
    change (2 ^ 32) with 4294967296 in Hr. split.
    - apply Z.div_pos; lia.
    - apply Z.div_le_upper_bound; lia. }
  assert (Hw : load_bytes m' 0x1f0008 4 = le32enc_bytes (perf_counter p) /\
               load_bytes m' 0x1f000c 4 = le32enc_bytes delivered).
  { subst m' delivered. apply secure_trigger_eqb in Hid.
    rewrite <- c_true_bit28 in Hbit. unfold mbox_status in Hbit.
    unfold perf_counter, fetched_clock.
    apply Z.eqb_eq in Hcmd. change 0x1f0004 with (0x1f0000 + 4) in Hcmd.
    run_handler; norm_addr; split; frame_out; apply load_bytes_le32enc. }
  destruct Hw as [Hw0 Hw1].
  repeat split; try apply Hd.
  - transitivity
      (load32 (store_bytes m 0x1f0008 (le32enc_bytes (perf_counter p))) 0x1f0008).
    + apply load32_bytes. now rewrite Hw0, load_bytes_le32enc.
    + rewrite load32_le32enc. apply u32_small, u32_range.
  - transitivity
      (load32 (store_bytes m 0x1f000c (le32enc_bytes delivered)) 0x1f000c).
    + apply load32_bytes. now rewrite Hw1, load_bytes_le32enc.
    + rewrite load32_le32enc. apply u32_small.
      change (2 ^ 32) with 4294967296. lia.
  - intros Hfits. subst delivered. rewrite u32_small; [reflexivity|].
    split; [apply Z.mul_nonneg_nonneg; lia | exact Hfits].
Qed.

(** Counter 1000 at 1.5 GHz: the reference and the delivered word are both
    1000. *)
Lemma handler_payload_witness :
  pending_id (sample_platform 32 0x10000000 1000 1500000000) = SECURE_TRIGGER /\
  Z.testbit (mbox_status (sample_platform 32 0x10000000 1000 1500000000)) 28 = true /\
  load16 zero_memory 0x1f0004 = 0 /\
  load32
    (state_of (generic_mb_interrupt_handler
                 (sample_platform 32 0x10000000 1000 1500000000) 0 0 0 0 zero_memory))
    0x1f000c
  = 1000.
Proof.
  split; [reflexivity|]. split; [reflexivity|]. split; [reflexivity|].
  exact (proj1 (proj2 (handler_payload_reads_back
                         (sample_platform 32 0x10000000 1000 1500000000) 0 0 0 0
                         zero_memory eq_refl eq_refl eq_refl))).
Defined.

(** * More properties of the boot path *)

(** X7: the early setup overwrites the saved program status and the security
    state of the BL33 descriptor, and fills its arguments by the boot
    protocol: untouched without direct Linux boot; (0, 0xffffffff, device
    tree address) in the first three for a 32-bit kernel, the fourth left as
    it was; (device tree address, 0, 0, 0) for a 64-bit kernel.  The device
    tree address is the one [rpi4_get_dtb_address] returns. *)
Theorem early_setup_boot_arguments
    (cfg : build_config) (stub : armstub8) (a0 a1 a2 a3 : Z) (g : globals) :
  let g' := state_of (bl31_early_platform_setup2 cfg stub a0 a1 a2 a3 g) in
  let old := bl33_image_ep_info g in
  let new := bl33_image_ep_info g' in
  let dtb := result_of (rpi4_get_dtb_address cfg stub g) in
  spsr new = u32 (rpi3_get_spsr_for_bl33_entry cfg) /\
  h_attr new = u32 (SET_SECURITY_STATE cfg (h_attr old) (NON_SECURE cfg)) /\
  (RPI3_DIRECT_LINUX_BOOT cfg = false ->
   (args_arg0 new, args_arg1 new, args_arg2 new, args_arg3 new)
   = (args_arg0 old, args_arg1 old, args_arg2 old, args_arg3 old)) /\
  (RPI3_DIRECT_LINUX_BOOT cfg = true -> RPI3_BL33_IN_AARCH32 cfg = true ->
   (args_arg0 new, args_arg1 new, args_arg2 new, args_arg3 new)
   = (0, 0xffffffff, dtb, args_arg3 old)) /\
  (RPI3_DIRECT_LINUX_BOOT cfg = true -> RPI3_BL33_IN_AARCH32 cfg = false ->
   (args_arg0 new, args_arg1 new, args_arg2 new, args_arg3 new)
   = (dtb, 0, 0, 0)).
Proof.
  run_early.
  destruct (PRELOADED_BL33_BASE cfg), (RPI3_PRELOADED_DTB_BASE cfg),
    (stub_magic stub =? 0), (RPI3_DIRECT_LINUX_BOOT cfg), (RPI3_BL33_IN_AARCH32 cfg);
    repeat split; intros; try discriminate; reflexivity.
Qed.

(** X8: after the early setup the non-secure query returns either NULL or the
    BL33 descriptor, and it returns NULL exactly when the entry point came
    out as 0: a preloaded base of 0, or a cleared stub marker with a kernel
    entry word of 0.  With the stub marker intact (fallback 0x80000) it
    never returns NULL. *)
Theorem early_setup_entry_zero_means_no_image
    (cfg : build_config) (stub : armstub8) (a0 a1 a2 a3 : Z) (g : globals) :
  let g' := state_of (bl31_early_platform_setup2 cfg stub a0 a1 a2 a3 g) in
  let query := bl31_plat_get_next_image_ep_info cfg g' (NON_SECURE cfg) in
  (query = Returned None \/ query = Returned (Some addr_bl33_image_ep_info)) /\
  (query = Returned None <->
   match PRELOADED_BL33_BASE cfg with
   | Some base => u64 base = 0
   | None => stub_magic stub = 0 /\ kernel_entry32 stub = 0
   end).
Proof.
  intros g' query. subst query.
  rewrite next_image_of_valid_type
    by (unfold sec_state_is_valid; rewrite (Z.eqb_refl (NON_SECURE cfg));
        apply orb_true_r).
  cbv zeta. rewrite Z.eqb_refl. cbn [deref]. subst g'.
  rewrite early_setup_sets_pc.
  unfold plat_get_ns_image_entrypoint.
  destruct (PRELOADED_BL33_BASE cfg) as [base|].
  - cbn [result_of ret fst]. destruct (Z.eqb_spec (u64 base) 0) as [Hz|Hz].
    + split; [now left|]. tauto.
    + split; [now right|]. split; [discriminate | contradiction].
  - destruct (Z.eqb_spec (stub_magic stub) 0) as [Hm|Hm].
    + cbn [result_of ret fst]. destruct (Z.eqb_spec (kernel_entry32 stub) 0) as [Hz|Hz].
      * split; [now left|]. tauto.
      * split; [now right|]. split; [discriminate | tauto].
    + split; [now right|]. split; [discriminate | tauto].
Qed.

(** X9: with the stub marker cleared and no preloaded device-tree base, the
    non-secure window the architecture setup maps is 2 MiB aligned, holds the
    device-tree pointer in its first 2 MiB, and contains every buffer the
    patcher hands to open-for-edit (the blob address with 1 MiB of room). *)
Theorem dtb_window_covers_edit_buffer
    {T : Type} {L : FdtLib T} (cfg : build_config) (stub : armstub8) (w : T) :
  stub_magic stub = 0 ->
  RPI3_PRELOADED_DTB_BASE cfg = None ->
  exists base,
    mapped_regions (trace_of (bl31_plat_arch_setup cfg stub tt))
    = [(base, base, 0x400000, [MT_MEMORY; MT_RW; MT_NS]);
       (0, 0, 4096, [MT_NON_CACHEABLE; MT_RW; MT_SECURE])] /\
    base mod 0x200000 = 0 /\
    base <= dtb_ptr32 stub < base + 0x200000 /\
    Forall (fun b => base <= fst b /\ fst b + snd b <= base + 0x400000)
      (open_buffers (trace_of (rpi4_prepare_dtb cfg stub w))).
Proof.
  intros Hmagic Hpre.
  exists (2 ^ 21 * (dtb_ptr32 stub / 2 ^ 21)).
  assert (Hbase : 2 ^ 21 * (dtb_ptr32 stub / 2 ^ 21) <= dtb_ptr32 stub
                  < 2 ^ 21 * (dtb_ptr32 stub / 2 ^ 21) + 0x200000).
  { pose proof (Z.mul_div_le (dtb_ptr32 stub) (2 ^ 21) ltac:(lia)).
    pose proof (Z.mul_succ_div_gt (dtb_ptr32 stub) (2 ^ 21) ltac:(lia)).
    change (2 ^ 21) with 2097152 in *. lia. }
  repeat apply conj.
  - unfold bl31_plat_arch_setup.
    rewrite Hmagic, align_2MB by apply dtb_ptr32_range. reflexivity.
  - change 0x200000 with (2 ^ 21). rewrite Z.mul_comm. apply Z.mod_mul. lia.
  - apply Hbase.
  - apply Hbase.
  - revert Hbase. generalize (2 ^ 21 * (dtb_ptr32 stub / 2 ^ 21)). intros base Hbase.
    apply Z.eqb_eq in Hmagic.
    run_patcher; try discriminate; unfold open_buffers; cbn [flat_map app];
      repeat constructor; cbv beta iota; lia.
Qed.

(** A device tree at 0x2eff2d00. *)
Lemma dtb_window_witness :
  stub_magic (sample_stub 0 0x2eff2d00 0x80000) = 0 /\
  RPI3_PRELOADED_DTB_BASE sample_config = None /\
  exists base,
    base mod 0x200000 = 0 /\
    base <= dtb_ptr32 (sample_stub 0 0x2eff2d00 0x80000) < base + 0x200000.
Proof.
  split; [reflexivity|]. split; [reflexivity|].
  destruct (@dtb_window_covers_edit_buffer prop_store (scripted_fdt all_succeed)
              sample_config (sample_stub 0 0x2eff2d00 0x80000) [] eq_refl eq_refl)
    as (base & _ & Haligned & Hholds & _).
  exists base. split; [exact Haligned | exact Hholds].
Defined.

(** X10: with the stub marker cleared, the non-secure device-tree window and
    the secure first page [0, 4096) share no address exactly when the
    device-tree pointer is at or above 2 MiB; below that the window starts
    at 0 and covers the page. *)
Theorem dtb_window_meets_first_page_iff
    (cfg : build_config) (stub : armstub8) :
  stub_magic stub = 0 ->
  exists base,
    mapped_regions (trace_of (bl31_plat_arch_setup cfg stub tt))
    = [(base, base, 0x400000, [MT_MEMORY; MT_RW; MT_NS]);
       (0, 0, 4096, [MT_NON_CACHEABLE; MT_RW; MT_SECURE])] /\
    (disjoint_ranges base 0x400000 0 4096 <-> 0x200000 <= dtb_ptr32 stub).
Proof.
  intros Hmagic.
  exists (2 ^ 21 * (dtb_ptr32 stub / 2 ^ 21)). split.
  - unfold bl31_plat_arch_setup.
    rewrite Hmagic, align_2MB by apply dtb_ptr32_range. reflexivity.
  - pose proof (dtb_ptr32_range stub) as Hr.
    pose proof (Z.mul_div_le (dtb_ptr32 stub) (2 ^ 21) ltac:(lia)).
    pose proof (Z.mul_succ_div_gt (dtb_ptr32 stub) (2 ^ 21) ltac:(lia)).
    assert (Hq : 0 <= dtb_ptr32 stub / 2 ^ 21) by (apply Z.div_pos; lia).
    unfold disjoint_ranges. change (2 ^ 21) with 2097152 in *. split.
    + intros [Hd|Hd]; [lia|].
      destruct (Z.eq_dec (dtb_ptr32 stub / 2097152) 0) as [Hz|Hz]; lia.
    + intros Hge. right.
      destruct (Z.eq_dec (dtb_ptr32 stub / 2097152) 0) as [Hz|Hz]; lia.
Qed.

(** A device tree at 1 MiB: the window starts at 0 and covers the first page. *)
Lemma dtb_window_overlap_witness :
  stub_magic (sample_stub 0 0x100000 0x80000) = 0 /\
  exists base,
    mapped_regions
      (trace_of (bl31_plat_arch_setup sample_config (sample_stub 0 0x100000 0x80000) tt))
    = [(base, base, 0x400000, [MT_MEMORY; MT_RW; MT_NS]);
       (0, 0, 4096, [MT_NON_CACHEABLE; MT_RW; MT_SECURE])] /\
    ~ disjoint_ranges base 0x400000 0 4096.
Proof.
  split; [reflexivity|].
  destruct (dtb_window_meets_first_page_iff sample_config
              (sample_stub 0 0x100000 0x80000) eq_refl) as (base & Hregions & Hiff).
  exists base. split; [exact Hregions|].
  intros Hdisjoint. apply Hiff in Hdisjoint.
  change (dtb_ptr32 (sample_stub 0 0x100000 0x80000)) with 0x100000 in Hdisjoint.
  lia.
Defined.

(** * More properties of the device-tree patcher *)

Ltac decide_tests :=
  repeat match goal with
         | [ |- context [?x =? 0] ] => destruct (Z.eqb_spec x 0); try lia
         | [ |- context [0 <=? ?x] ] => destruct (Z.leb_spec 0 x); try lia
         end.

(** X11: the patcher logs "Changed device tree to advertise PSCI." and
    flushes the blob (its address, with the size the blob reports at the
    end) exactly when the header check, the open-for-edit, the PSCI node and
    the cpu-enable methods all succeeded, whatever the later steps returned.
    When it stops early it logs one error, except after a failed header
    check, where it logs none. *)
Theorem prepare_dtb_reports_success_iff_completed
    {T : Type} {L : FdtLib T} (cfg : build_config) (stub : armstub8) (w : T) :
  let dtb := result_of (rpi4_get_dtb_address cfg stub w) in
  let r := rpi4_prepare_dtb cfg stub w in
  let opened := fdt_open_into w dtb dtb 0x100000 in
  let psci := dt_add_psci_node (snd opened) dtb in
  let methods := dt_add_psci_cpu_enable_methods (snd psci) dtb in
  let completed :=
    (fdt_check_header w dtb =? 0) && (0 <=? fst opened) &&
    (fst psci =? 0) && (fst methods =? 0) in
  infos (trace_of r)
  = (if completed then [("Changed device tree to advertise PSCI."%string, [])]
     else []) /\
  flushes (trace_of r)
  = (if completed then [(dtb, fdt_blob_size (state_of r) dtb)] else []) /\
  (completed = false ->
   List.length (errors (trace_of r)) = b2n (fdt_check_header w dtb =? 0)).
Proof.
  run_patcher; decide_tests; cbn [andb];
    repeat apply conj; try reflexivity; intros; try discriminate; reflexivity.
Qed.

(** X12: when the patcher reaches the pack step, a negative result is logged
    as one error line with the blob address and the result; nothing else is
    logged as an error on that path, and the cache flush and the success
    line follow in every case. *)
Theorem prepare_dtb_pack_failure_only_logged
    {T : Type} {L : FdtLib T} (cfg : build_config) (stub : armstub8) (w : T)
    (code : Z) :
  let dtb := result_of (rpi4_get_dtb_address cfg stub w) in
  let r := rpi4_prepare_dtb cfg stub w in
  packs (trace_of r) = [code] ->
  errors (trace_of r)
  = (if code <? 0
     then [("Failed to pack Device Tree at %p: error %d"%string, [dtb; code])]
     else []) /\
  flushes (trace_of r) = [(dtb, fdt_blob_size (state_of r) dtb)] /\
  infos (trace_of r) = [("Changed device tree to advertise PSCI."%string, [])].
Proof.
  run_patcher; unfold packs; cbn [flat_map app]; intros Hpack;
    try discriminate Hpack; injection Hpack as Hcode; subst code;
    first [exfalso; lia | repeat apply conj; reflexivity].
Qed.

(** A pack that fails with -3. *)
Lemma prepare_dtb_pack_failure_witness :
  packs (trace_of (@rpi4_prepare_dtb prop_store
                     (scripted_fdt (fails_at Step_pack (-3)))
                     sample_config (sample_stub 0 0x2eff2d00 0x80000) []))
  = [-3] /\
  errors (trace_of (@rpi4_prepare_dtb prop_store
                      (scripted_fdt (fails_at Step_pack (-3)))
                      sample_config (sample_stub 0 0x2eff2d00 0x80000) []))
  = [("Failed to pack Device Tree at %p: error %d"%string, [0x2eff2d00; -3])].
Proof.
  split; [reflexivity|].
  exact (proj1 (@prepare_dtb_pack_failure_only_logged prop_store
                  (scripted_fdt (fails_at Step_pack (-3)))
                  sample_config (sample_stub 0 0x2eff2d00 0x80000) [] (-3) eq_refl)).
Defined.

(** X13: the patcher checks the header exactly once, and every libfdt call
    and the cache flush of a run are made on the one address
    [rpi4_get_dtb_address] returned; the blob is opened for editing in
    place, with a buffer of 0x100000 bytes at that same address. *)
Theorem prepare_dtb_works_on_one_address
    {T : Type} {L : FdtLib T} (cfg : build_config) (stub : armstub8) (w : T) :
  let dtb := result_of (rpi4_get_dtb_address cfg stub w) in
  let t := trace_of (rpi4_prepare_dtb cfg stub w) in
  checked_headers t = [dtb] /\
  Forall (eq dtb) (fdt_addresses t) /\
  Forall (eq (dtb, 0x100000)) (open_buffers t).
Proof.
  run_patcher; repeat apply conj; try reflexivity;
    unfold fdt_addresses, open_buffers; cbn [flat_map app];
    repeat constructor.
Qed.

(** * Runs that follow one another *)

(** A read request found with the command of channel 0 clear. *)
Lemma read_request_on_clear_command
    (p : platform) (id flags handle cookie : Z) (m : memory) :
  pending_id p = SECURE_TRIGGER ->
  Z.testbit (mbox_status p) 28 = true ->
  load16 m 0x1f0004 = 0 ->
  let r := generic_mb_interrupt_handler p id flags handle cookie m in
  count is_vc_get_clock (trace_of r) = 1%nat /\
  load_bytes (state_of r) 0x1f0008 4 = le32enc_bytes (perf_counter p) /\
  (Z.testbit (mbox_status p) 29 = false -> errors (trace_of r) = []).
Proof.
  intros Hid Hbit Hcmd r. subst r. apply secure_trigger_eqb in Hid.
  rewrite <- bit29_test.
  rewrite <- c_true_bit28 in Hbit. unfold mbox_status in Hbit.
  unfold perf_counter.
  apply Z.eqb_eq in Hcmd. change 0x1f0004 with (0x1f0000 + 4) in Hcmd.
  run_handler; norm_addr; repeat apply conj; try reflexivity;
    try (intros; discriminate);
    frame_out; apply load_bytes_le32enc.
Qed.

Lemma handler_leaves_command_clear
    (p : platform) (id flags handle cookie : Z) (m : memory) :
  pending_id p = SECURE_TRIGGER ->
  load16 (state_of (generic_mb_interrupt_handler p id flags handle cookie m)) 0x1f0004
  = 0.
Proof.
  intros Hid. apply secure_trigger_eqb in Hid.
  run_handler; apply (proj1 (proj2 (proj1 (reidle_both _)))).
Qed.

(** X6: a run on the secure trigger leaves the command of channel 0 clear, so
    the next run that finds bit 28 set serves a read request whatever the
    first run was about: it makes one get-clock call and writes its counter
    to the payload, and when bit 29 is clear it logs no error. *)
Theorem handler_rerun_serves_read_request
    (p1 p2 : platform) (id flags handle cookie : Z) (m : memory) :
  pending_id p1 = SECURE_TRIGGER ->
  pending_id p2 = SECURE_TRIGGER ->
  Z.testbit (mbox_status p2) 28 = true ->
  let m1 := state_of (generic_mb_interrupt_handler p1 id flags handle cookie m) in
  let r2 := generic_mb_interrupt_handler p2 id flags handle cookie m1 in
  count is_vc_get_clock (trace_of r2) = 1%nat /\
  load_bytes (state_of r2) 0x1f0008 4 = le32enc_bytes (perf_counter p2) /\
  (Z.testbit (mbox_status p2) 29 = false -> errors (trace_of r2) = []).
Proof.
  intros Hid1 Hid2 Hbit m1 r2. subst r2.
  apply read_request_on_clear_command; try assumption.
  subst m1. now apply handler_leaves_command_clear.
Qed.

(** A write command pending at the first interrupt is gone at the second. *)
Lemma handler_rerun_witness :
  pending_id (sample_platform 32 0x10000000 7 1500000000) = SECURE_TRIGGER /\
  pending_id (sample_platform 32 0x10000000 1000 1500000000) = SECURE_TRIGGER /\
  Z.testbit (mbox_status (sample_platform 32 0x10000000 1000 1500000000)) 28 = true /\
  count is_vc_get_clock
    (trace_of (generic_mb_interrupt_handler
                 (sample_platform 32 0x10000000 7 1500000000) 0 0 0 0
                 (memory_with_command 1)))
  = 0%nat /\
  count is_vc_get_clock
    (trace_of (generic_mb_interrupt_handler
                 (sample_platform 32 0x10000000 1000 1500000000) 0 0 0 0
                 (state_of (generic_mb_interrupt_handler
                              (sample_platform 32 0x10000000 7 1500000000) 0 0 0 0
                              (memory_with_command 1)))))
  = 1%nat.
Proof.
  split; [reflexivity|]. split; [reflexivity|]. split; [reflexivity|].
  split; [reflexivity|].
  exact (proj1 (handler_rerun_serves_read_request
                  (sample_platform 32 0x10000000 7 1500000000)
                  (sample_platform 32 0x10000000 1000 1500000000) 0 0 0 0
                  (memory_with_command 1) eq_refl eq_refl eq_refl)).
Defined.

(** * Platform setup *)

Ltac run_setup :=
  cbv beta iota zeta delta
    [bl31_platform_setup setup_bind setup_ret setup_emit lift_run
     setup_state_of setup_trace_of
     rpi4_vc_set_power rpi4_vc_get_board_revision rpi4_vc_max_clock
     rpi4_vc_get_clock rpi4_vc_set_pwm INFO emit wr bind ret
     result_of state_of trace_of fst snd
     pcc_region_t.Signature pcc_region_t.Command pcc_region_t.Status];
  try match goal with
      | [ |- context [rpi4_prepare_dtb ?c ?s ?w] ] =>
          destruct (rpi4_prepare_dtb c s w) as [[? ?] ?]
      end;
  cbv beta iota.

(** X15: the device-tree patcher edits the blob where it lies in memory, and
    the late setup goes on with the memory the patcher left.  Whatever that
    is, the setup ends with both mailbox regions holding their idle triple,
    also when the 1 MiB edit buffer of the blob lies over 0x1f0000: the
    triples then replace the blob bytes there.  Apart from the 8 header
    bytes of each region every byte is as the patcher left it. *)
Theorem platform_setup_leaves_mailbox_idle
    {L : FdtLib memory} (cfg : build_config) (stub : armstub8)
    (env : setup_env) (p : platform) (m : memory) :
  let d := rpi4_prepare_dtb cfg stub m in
  let m' := setup_state_of (bl31_platform_setup cfg stub env p m) in
  pcc_idle m' 0x1f0000 0x50434300 /\
  pcc_idle m' 0x1f0080 0x50434301 /\
  (forall a, ~ (0x1f0000 <= a < 0x1f0008) -> ~ in_channel1_header a ->
             m' a = state_of d a).
Proof.
  run_setup.
  match goal with
  | [ |- pcc_idle ?f _ _ /\ _ ] =>
      match f with
      | store16 (store16 (store32 (store16 (store16 (store32 ?m1 _ _) _ _) _ _)
                            _ _) _ _) _ _ =>
          destruct (reidle_both m1) as [Hidle0 Hidle1]
      end
  end.
  split; [exact Hidle0 | split; [exact Hidle1|]].
  unfold in_channel1_header. intros a Hout0 Hout1. frame_bytes.
Qed.

(** A blob at 0x1f0000: the patcher leaves the device-tree magic in the
    first four bytes, and the setup ends with the signature of channel 0 in
    their place. *)
Lemma platform_setup_blob_witness :
  result_of (@rpi4_get_dtb_address memory sample_config
               (sample_stub 0 0x1f0000 0x80000) zero_memory)
  = 0x1f0000 /\
  load_bytes
    (state_of (@rpi4_prepare_dtb memory in_memory_fdt sample_config
                 (sample_stub 0 0x1f0000 0x80000) zero_memory))
    0x1f0000 4
  = [0xd0; 0x0d; 0xfe; 0xed] /\
  pcc_idle
    (setup_state_of
       (@bl31_platform_setup in_memory_fdt sample_config
          (sample_stub 0 0x1f0000 0x80000) sample_env
          (sample_platform 0 0 0 1500000000) zero_memory))
    0x1f0000 0x50434300.
Proof.
  split; [reflexivity|]. split; [reflexivity|].
  exact (proj1 (@platform_setup_leaves_mailbox_idle in_memory_fdt sample_config
                  (sample_stub 0 0x1f0000 0x80000) sample_env
                  (sample_platform 0 0 0 1500000000) zero_memory)).
Defined.

(** X16: the handler the late setup registered, invoked on the memory the
    setup left (the blob the patcher edited in it included), serves a first
    read request (secure trigger, bit 28 set): one get-clock call, the
    counter in the payload, and no error logged when bit 29 is clear. *)
Theorem first_interrupt_after_setup_is_served
    {L : FdtLib memory} (cfg : build_config) (stub : armstub8)
    (env : setup_env) (p0 p : platform) (m : memory)
    (id flags handle cookie : Z) :
  pending_id p = SECURE_TRIGGER ->
  Z.testbit (mbox_status p) 28 = true ->
  let m' := setup_state_of (bl31_platform_setup cfg stub env p0 m) in
  let r := invoke addr_generic_mb_interrupt_handler p id flags handle cookie m' in
  count is_vc_get_clock (trace_of r) = 1%nat /\
  load_bytes (state_of r) 0x1f0008 4 = le32enc_bytes (perf_counter p) /\
  (Z.testbit (mbox_status p) 29 = false -> errors (trace_of r) = []).
Proof.
  intros Hid Hbit m' r. subst r. unfold invoke.
  apply read_request_on_clear_command; try assumption.
  subst m'. run_setup. apply (proj1 (proj2 (proj1 (reidle_both _)))).
Qed.

(** The first read request after a setup whose blob lies at 0x1f0000. *)
Lemma first_interrupt_witness :
  pending_id (sample_platform 32 0x10000000 1000 1500000000) = SECURE_TRIGGER /\
  Z.testbit (mbox_status (sample_platform 32 0x10000000 1000 1500000000)) 28 = true /\
  errors
    (trace_of
       (invoke addr_generic_mb_interrupt_handler
          (sample_platform 32 0x10000000 1000 1500000000) 0 0 0 0
          (setup_state_of
             (@bl31_platform_setup in_memory_fdt
                sample_config (sample_stub 0 0x1f0000 0x80000) sample_env
                (sample_platform 0 0 0 1500000000) zero_memory))))
  = [].
Proof.
  split; [reflexivity|]. split; [reflexivity|].
  exact (proj2 (proj2 (@first_interrupt_after_setup_is_served
                         in_memory_fdt sample_config
                         (sample_stub 0 0x1f0000 0x80000) sample_env
                         (sample_platform 0 0 0 1500000000)
                         (sample_platform 32 0x10000000 1000 1500000000)
                         zero_memory 0 0 0 0 eq_refl eq_refl)) eq_refl).
Defined.
